(** * MCP server: tool telemetry, tool bodies and the tool registry

    A shallow embedding of [src/handlers/base_tool.py],
    [src/handlers/data_tools.py], [src/handlers/office_tools.py],
    [src/handlers/file_tools.py] and the registry of
    [src/simple_server.py], followed by the properties of the
    specification that concern them and by further properties of the code.

    Conventions of the embedding:
    - a Python object that is mutated in place ([self]) is threaded through:
      a method takes the object and returns the updated object;
    - [datetime.now()] is an input: the clock reading is the argument [now]
      of the method that reads it;
    - a coroutine that is awaited at once is its body. *)

From Stdlib Require Import ZArith Ascii String List Lia.
From stdpp Require Import base option list gmap strings pretty.

Set Warnings "-register-all".
Local Open Scope Z_scope.

(** ** Python values *)

(** The values that travel through arguments and result dictionaries.  A
    [float] is carried as its [repr]; a [dict] is the list of its items in
    insertion order (its keys are pairwise distinct). *)
Inductive value : Type :=
  | VNone
  | VBool (b : bool)
  | VInt (z : Z)
  | VFloat (repr : string)
  | VStr (s : string)
  | VList (items : list value)
  | VTuple (items : list value)
  | VDict (items : list (string * value)).

(** A result envelope: [Dict[str, Any]]. *)
Definition dict : Type := list (string * value).

(** [d.get(k)] *)
Fixpoint dict_get (k : string) (d : dict) : option value :=
  match d with
  | [] => None
  | (k', v) :: d' => if String.eqb k k' then Some v else dict_get k d'
  end.

(** What a call does: it returns a dictionary or raises an [Exception]
    [e], carried as [str(e)]. *)
Inductive outcome : Type :=
  | Returns (r : dict)
  | Raises (e : string).

(** [needle in haystack] on strings. *)
Fixpoint str_contains (needle haystack : string) : bool :=
  String.prefix needle haystack ||
  match haystack with
  | EmptyString => false
  | String _ rest => str_contains needle rest
  end.

(** ** base_tool.py *)

Module BaseTool.

Definition timestamp := Z.

(** One element of [self.errors]: [{"time": ..., "error": ...}]. *)
Record error_entry : Type := ErrorEntry {
  time : timestamp;
  error : string
}.

(** The attributes set by [MCPTool.__init__]. *)
Record MCPTool : Type := mkMCPTool {
  name : string;
  description : string;
  call_count : Z;
  last_called : option timestamp;
  errors : list error_entry
}.

Definition init (name description : string) : MCPTool :=
  {| name := name;
     description := description;
     call_count := 0;
     last_called := None;
     errors := [] |}.

(** Truth value of [error] in [if not success and error]: [None] and the
    empty string are false. *)
Definition truthy (error : option string) : bool :=
  match error with
  | None => false
  | Some s => negb (String.eqb s "")
  end.

Definition log_call (self : MCPTool) (success : bool)
    (error : option string) (now : timestamp) : MCPTool :=
  {| name := name self;
     description := description self;
     call_count := call_count self + 1;
     last_called := Some now;
     errors :=
       match error with
       | Some e =>
           if negb success && truthy error
           then errors self ++ [ {| time := now; error := e |} ]
           else errors self
       | None => errors self
       end |}.

(** [l[-n:]] *)
Definition slice_last {A : Type} (n : nat) (l : list A) : list A :=
  drop (length l - n) l.

(** The dictionary built by [get_stats].  [last_called] is kept as the
    instant that [isoformat()] renders. *)
Record stats : Type := mkStats {
  stats_name : string;
  stats_call_count : Z;
  stats_last_called : option timestamp;
  error_count : nat;
  recent_errors : list error_entry
}.

Definition get_stats (self : MCPTool) : stats :=
  {| stats_name := name self;
     stats_call_count := call_count self;
     stats_last_called := last_called self;
     error_count := length (errors self);
     recent_errors :=
       match errors self with
       | [] => []
       | _ :: _ => slice_last 3 (errors self)
       end |}.

(** The invariant of the telemetry: [call_count >= len(errors)]. *)
Definition invariant (self : MCPTool) : Prop :=
  Z.of_nat (length (errors self)) <= call_count self.

(** A run of telemetry updates, oldest first. *)
Record call : Type := Call {
  call_success : bool;
  call_error : option string;
  call_now : timestamp
}.

Definition log_calls (self : MCPTool) (calls : list call) : MCPTool :=
  fold_left
    (fun t c => log_call t (call_success c) (call_error c) (call_now c))
    calls self.

(** The entries a run of updates records, oldest first. *)
Definition recorded (calls : list call) : list error_entry :=
  flat_map
    (fun c =>
       match call_error c with
       | Some e =>
           if negb (call_success c) && truthy (call_error c)
           then [ {| time := call_now c; error := e |} ]
           else []
       | None => []
       end)
    calls.

End BaseTool.

(** ** The integer fragment of Python's [eval]

    [eval] is the interpreter's, not the repository's.  [arith_eval] is the
    part of it that the calculator scenario exercises: decimal integer
    literals, the binary operators [+], [-] and [*], unary [+] and [-],
    parentheses and blanks, with Python's precedence and left
    associativity.  It answers [None] on every other expression (division,
    floats, tuples, powers, syntax errors). *)

Module PyArith.

Inductive token : Type :=
  | TNum (n : Z)
  | TPlus
  | TMinus
  | TStar
  | TLParen
  | TRParen.

Definition digit_of (c : ascii) : option Z :=
  let n := Z.of_nat (nat_of_ascii c) in
  if (48 <=? n) && (n <=? 57) then Some (n - 48) else None.

(** A character that ends a number: a blank ([Some None]) or a one-character
    token; [None] for a character outside the fragment. *)
Definition separator (c : ascii) : option (option token) :=
  if Ascii.eqb c " " then Some None
  else if Ascii.eqb c "+" then Some (Some TPlus)
  else if Ascii.eqb c "-" then Some (Some TMinus)
  else if Ascii.eqb c "*" then Some (Some TStar)
  else if Ascii.eqb c "(" then Some (Some TLParen)
  else if Ascii.eqb c ")" then Some (Some TRParen)
  else None.

(** The digits read so far (last one first) become a literal; a literal of
    several digits that starts with [0] is outside the fragment. *)
Definition flush (cur : option (list Z)) : option (list token) :=
  match cur with
  | None => Some []
  | Some ds =>
      match rev ds with
      | 0 :: _ :: _ => None
      | ds' => Some [TNum (fold_left (fun a d => 10 * a + d) ds' 0)]
      end
  end.

Fixpoint tokenize (cs : list ascii) (cur : option (list Z))
    : option (list token) :=
  match cs with
  | [] => flush cur
  | c :: cs' =>
      match digit_of c with
      | Some d => tokenize cs' (Some (d :: default [] cur))
      | None =>
          match separator c, flush cur, tokenize cs' None with
          | Some sep, Some ts1, Some ts2 =>
              Some (ts1 ++ option_list sep ++ ts2)
          | _, _, _ => None
          end
      end
  end.

(** Recursive descent over
      expr   ::= term (("+" | "-") term)*
      term   ::= factor ("*" factor)*
      factor ::= ("+" | "-") factor | NUMBER | "(" expr ")"
    Each function returns the value read and the tokens left. *)
Fixpoint expr (fuel : nat) (ts : list token) : option (Z * list token) :=
  match fuel with
  | O => None
  | S fuel' =>
      match term fuel' ts with
      | Some (v, rest) => expr_rest fuel' v rest
      | None => None
      end
  end
with expr_rest (fuel : nat) (acc : Z) (ts : list token)
    : option (Z * list token) :=
  match fuel with
  | O => None
  | S fuel' =>
      match ts with
      | TPlus :: ts' =>
          match term fuel' ts' with
          | Some (v, rest) => expr_rest fuel' (acc + v) rest
          | None => None
          end
      | TMinus :: ts' =>
          match term fuel' ts' with
          | Some (v, rest) => expr_rest fuel' (acc - v) rest
          | None => None
          end
      | _ => Some (acc, ts)
      end
  end
with term (fuel : nat) (ts : list token) : option (Z * list token) :=
  match fuel with
  | O => None
  | S fuel' =>
      match factor fuel' ts with
      | Some (v, rest) => term_rest fuel' v rest
      | None => None
      end
  end
with term_rest (fuel : nat) (acc : Z) (ts : list token)
    : option (Z * list token) :=
  match fuel with
  | O => None
  | S fuel' =>
      match ts with
      | TStar :: ts' =>
          match factor fuel' ts' with
          | Some (v, rest) => term_rest fuel' (acc * v) rest
          | None => None
          end
      | _ => Some (acc, ts)
      end
  end
with factor (fuel : nat) (ts : list token) : option (Z * list token) :=
  match fuel with
  | O => None
  | S fuel' =>
      match ts with
      | TPlus :: ts' => factor fuel' ts'
      | TMinus :: ts' =>
          match factor fuel' ts' with
          | Some (v, rest) => Some (- v, rest)
          | None => None
          end
      | TNum n :: ts' => Some (n, ts')
      | TLParen :: ts' =>
          match expr fuel' ts' with
          | Some (v, TRParen :: rest) => Some (v, rest)
          | _ => None
          end
      | _ => None
      end
  end.

Definition arith_eval (expression : string) : option Z :=
  match tokenize (list_ascii_of_string expression) None with
  | Some ts =>
      match expr (8 * length ts + 8) ts with
      | Some (v, []) => Some v
      | _ => None
      end
  | None => None
  end.

End PyArith.

(** ** data_tools.py *)

(** The failure envelope [{"success": False, "error": msg}]. *)
Definition failure (msg : string) : dict :=
  [("success"%string, VBool false); ("error"%string, VStr msg)].

Module CalculatorTool.
Import BaseTool.

Definition new : MCPTool :=
  init "calculator" "Perform mathematical calculations".

Definition get_schema (self : MCPTool) : value :=
  VDict
    [("type"%string, VStr "function");
     ("function"%string,
      VDict
        [("name"%string, VStr (name self));
         ("description"%string, VStr (description self));
         ("parameters"%string,
          VDict
            [("type"%string, VStr "object");
             ("properties"%string,
              VDict
                [("expression"%string,
                  VDict
                    [("type"%string, VStr "string");
                     ("description"%string,
                      VStr "Mathematical expression to evaluate (e.g., '2 + 2 * 3')")])]);
             ("required"%string, VList [VStr "expression"])])])].

(** What [eval(expression)] does. *)
Inductive eval_outcome : Type :=
  | EvalValue (result : value)
  | EvalRaises (e : string).

Definition allowed_chars : list ascii :=
  list_ascii_of_string "0123456789+-*/()., ".

(** [all(c in allowed_chars for c in expression)] *)
Definition all_allowed (expression : string) : bool :=
  forallb (fun c => existsb (Ascii.eqb c) allowed_chars)
    (list_ascii_of_string expression).

Section Execute.
Variable py_eval : string -> eval_outcome.

Definition execute (self : MCPTool) (expression : string) (now : timestamp)
    : MCPTool * dict :=
  if negb (all_allowed expression) then
    (log_call self false (Some "Invalid characters in expression"%string) now,
     [("success"%string, VBool false);
      ("error"%string, VStr "Expression contains invalid characters")])
  else
    match py_eval expression with
    | EvalValue result =>
        (log_call self true None now,
         [("success"%string, VBool true);
          ("expression"%string, VStr expression);
          ("result"%string, result)])
    | EvalRaises e =>
        let error_msg := ("Calculation error: " +:+ e)%string in
        (log_call self false (Some error_msg) now,
         [("success"%string, VBool false);
          ("error"%string, VStr error_msg)])
    end.

End Execute.

(** An evaluator agrees with the integer fragment on [expression]. *)
Definition agrees_on (py_eval : string -> eval_outcome)
    (expression : string) : Prop :=
  forall v, PyArith.arith_eval expression = Some v ->
            py_eval expression = EvalValue (VInt v).

(** The integer fragment as an evaluator; outside the fragment it raises. *)
Definition arith_py_eval (expression : string) : eval_outcome :=
  match PyArith.arith_eval expression with
  | Some v => EvalValue (VInt v)
  | None => EvalRaises "invalid syntax"
  end.

End CalculatorTool.

Module JSONProcessorTool.
Import BaseTool.

Definition new : MCPTool :=
  init "json_processor" "Process and manipulate JSON data".

(** The enum the schema declares for [operation]. *)
Definition operation_enum : list string :=
  ["validate"; "format"; "extract_keys"; "count_items"]%string.

(** What [json.loads(json_data)] does on a string. *)
Inductive loads_outcome : Type :=
  | Loaded (data : value)
  | JSONDecodeError (e : string)
  | LoadsRaises (e : string).

(** [type(data).__name__] *)
Definition type_name (data : value) : string :=
  match data with
  | VNone => "NoneType"
  | VBool _ => "bool"
  | VInt _ => "int"
  | VFloat _ => "float"
  | VStr _ => "str"
  | VList _ => "list"
  | VTuple _ => "tuple"
  | VDict _ => "dict"
  end.

Section Execute.
Variable json_loads : string -> loads_outcome.
(** [json.dumps(data, indent=2)] *)
Variable json_dumps_indent2 : value -> string.

Definition execute (self : MCPTool) (json_data operation key_path : string)
    (now : timestamp) : MCPTool * dict :=
  match json_loads json_data with
  | Loaded data =>
      let result : dict :=
        if String.eqb operation "validate" then
          [("valid"%string, VBool true);
           ("message"%string, VStr "JSON is valid")]
        else if String.eqb operation "format" then
          [("formatted"%string, VStr (json_dumps_indent2 data))]
        else if String.eqb operation "extract_keys" then
          match data with
          | VDict items => [("keys"%string, VList (map (fun kv => VStr (fst kv)) items))]
          | _ => [("keys"%string, VList []);
                  ("message"%string, VStr "Data is not a dictionary")]
          end
        else if String.eqb operation "count_items" then
          match data with
          | VDict items =>
              [("count"%string, VInt (Z.of_nat (length items)));
               ("type"%string, VStr "dictionary")]
          | VList items =>
              [("count"%string, VInt (Z.of_nat (length items)));
               ("type"%string, VStr "list")]
          | _ =>
              [("count"%string, VInt 1);
               ("type"%string, VStr (type_name data))]
          end
        else
          [("error"%string, VStr ("Unknown operation: " +:+ operation))] in
      (log_call self true None now,
       [("success"%string, VBool true);
        ("operation"%string, VStr operation);
        ("result"%string, VDict result)])
  | JSONDecodeError e =>
      let error_msg := ("Invalid JSON: " +:+ e)%string in
      (log_call self false (Some error_msg) now,
       [("success"%string, VBool false); ("error"%string, VStr error_msg)])
  | LoadsRaises e =>
      let error_msg := ("Processing error: " +:+ e)%string in
      (log_call self false (Some error_msg) now,
       [("success"%string, VBool false); ("error"%string, VStr error_msg)])
  end.

End Execute.

(** A stand-in for [json.loads] that knows the empty object and the empty
    array only. *)
Definition loads_empty (json_data : string) : loads_outcome :=
  if String.eqb json_data "{}" then Loaded (VDict [])
  else if String.eqb json_data "[]" then Loaded (VList [])
  else JSONDecodeError "Expecting value: line 1 column 1 (char 0)".

End JSONProcessorTool.

(** ** office_tools.py *)

(** [str(e)] of the [AttributeError] raised by [self.attr] when the class
    defines no [attr]. *)
Definition attribute_error (cls attr : string) : string :=
  ("'" +:+ cls +:+ "' object has no attribute '" +:+ attr +:+ "'")%string.

(** [kwargs.get(key, fallback)]; [kwargs.get(key)] has fallback [None]. *)
Definition kwargs_get (kwargs : gmap string value) (key : string)
    (fallback : value) : value :=
  default fallback (kwargs !! key).

Module EmailIntegrationTool.
Import BaseTool.

Definition new : MCPTool :=
  init "email_integration" "Read, send, and search emails via IMAP/SMTP".

Definition operation_enum : list string :=
  ["read_recent"; "send_email"; "search_emails"; "get_unread"]%string.

Definition _read_recent_emails (self : MCPTool) (config limit : value)
    (now : timestamp) : MCPTool * outcome :=
  (log_call self true None now,
   Returns
     [("success"%string, VBool true);
      ("operation"%string, VStr "read_recent");
      ("emails"%string,
       VList
         [VDict [("subject"%string, VStr "Weekly Team Meeting");
                 ("from"%string, VStr "manager@company.com");
                 ("date"%string, VStr "2024-01-15");
                 ("preview"%string,
                  VStr "Hi team, let's schedule our weekly sync...")];
          VDict [("subject"%string, VStr "Project Update Required");
                 ("from"%string, VStr "project@company.com");
                 ("date"%string, VStr "2024-01-14");
                 ("preview"%string,
                  VStr "Please provide status update on current tasks...")]]);
      ("count"%string, VInt 2);
      ("note"%string,
       VStr "Demo mode - replace with actual IMAP implementation")]).

Definition _send_email (self : MCPTool) (config to_email subject body : value)
    (now : timestamp) : MCPTool * outcome :=
  (log_call self true None now,
   Returns
     [("success"%string, VBool true);
      ("operation"%string, VStr "send_email");
      ("to"%string, to_email);
      ("subject"%string, subject);
      ("message"%string, VStr "Email sent successfully (demo mode)");
      ("note"%string,
       VStr "Demo mode - replace with actual SMTP implementation")]).

(** The [try] block of [execute].  The class defines neither
    [_search_emails] nor [_get_unread_emails]: looking them up raises. *)
Definition execute_try (self : MCPTool) (operation : string)
    (email_config : value) (kwargs : gmap string value) (now : timestamp)
    : MCPTool * outcome :=
  if String.eqb operation "read_recent" then
    _read_recent_emails self email_config
      (kwargs_get kwargs "limit" (VInt 10)) now
  else if String.eqb operation "send_email" then
    _send_email self email_config
      (kwargs_get kwargs "to_email" VNone)
      (kwargs_get kwargs "subject" VNone)
      (kwargs_get kwargs "body" VNone) now
  else if String.eqb operation "search_emails" then
    (self, Raises (attribute_error "EmailIntegrationTool" "_search_emails"))
  else if String.eqb operation "get_unread" then
    (self,
     Raises (attribute_error "EmailIntegrationTool" "_get_unread_emails"))
  else
    (self, Returns (failure ("Unknown operation: " +:+ operation))).

Definition execute (self : MCPTool) (operation : string)
    (email_config : value) (kwargs : gmap string value) (now : timestamp)
    : MCPTool * dict :=
  match execute_try self operation email_config kwargs now with
  | (self', Returns r) => (self', r)
  | (self', Raises e) =>
      let error_msg := ("Email operation error: " +:+ e)%string in
      (log_call self' false (Some error_msg) now, failure error_msg)
  end.

End EmailIntegrationTool.

Module SlackIntegrationTool.
Import BaseTool.

Definition new : MCPTool :=
  init "slack_integration" "Read messages and post updates to Slack channels".

Definition operation_enum : list string :=
  ["read_messages"; "post_message"; "get_channels"; "search_messages"]%string.

Definition _read_messages (self : MCPTool) (headers : dict)
    (channel limit : value) (now : timestamp) : MCPTool * outcome :=
  (log_call self true None now,
   Returns
     [("success"%string, VBool true);
      ("operation"%string, VStr "read_messages");
      ("channel"%string, channel);
      ("messages"%string,
       VList
         [VDict [("user"%string, VStr "john.doe");
                 ("text"%string,
                  VStr "Great meeting today, thanks everyone!");
                 ("timestamp"%string, VStr "2024-01-15T14:30:00Z")];
          VDict [("user"%string, VStr "jane.smith");
                 ("text"%string,
                  VStr "Can we schedule a follow-up for next week?");
                 ("timestamp"%string, VStr "2024-01-15T14:32:00Z")]]);
      ("count"%string, VInt 2);
      ("note"%string,
       VStr "Demo mode - replace with actual Slack API calls")]).

Definition _post_message (self : MCPTool) (headers : dict)
    (channel message : value) (now : timestamp) : MCPTool * outcome :=
  (log_call self true None now,
   Returns
     [("success"%string, VBool true);
      ("operation"%string, VStr "post_message");
      ("channel"%string, channel);
      ("message"%string, message);
      ("result"%string, VStr "Message posted successfully (demo mode)");
      ("note"%string,
       VStr "Demo mode - replace with actual Slack API calls")]).

(** The [try] block of [execute].  The class defines neither
    [_get_channels] nor [_search_messages]. *)
Definition execute_try (self : MCPTool) (operation token : string)
    (kwargs : gmap string value) (now : timestamp) : MCPTool * outcome :=
  let headers : dict :=
    [("Authorization"%string, VStr ("Bearer " +:+ token))] in
  if String.eqb operation "read_messages" then
    _read_messages self headers
      (kwargs_get kwargs "channel" VNone)
      (kwargs_get kwargs "limit" (VInt 10)) now
  else if String.eqb operation "post_message" then
    _post_message self headers
      (kwargs_get kwargs "channel" VNone)
      (kwargs_get kwargs "message" VNone) now
  else if String.eqb operation "get_channels" then
    (self, Raises (attribute_error "SlackIntegrationTool" "_get_channels"))
  else if String.eqb operation "search_messages" then
    (self, Raises (attribute_error "SlackIntegrationTool" "_search_messages"))
  else
    (self, Returns (failure ("Unknown operation: " +:+ operation))).

Definition execute (self : MCPTool) (operation token : string)
    (kwargs : gmap string value) (now : timestamp) : MCPTool * dict :=
  match execute_try self operation token kwargs now with
  | (self', Returns r) => (self', r)
  | (self', Raises e) =>
      let error_msg := ("Slack operation error: " +:+ e)%string in
      (log_call self' false (Some error_msg) now, failure error_msg)
  end.

End SlackIntegrationTool.

(** ** simple_server.py *)

Module SimpleToolRegistry.
Import BaseTool.

(** The parameters of an [execute] method after [self]: those without a
    default, those with one, and whether a [**kwargs] collects the rest. *)
Record signature : Type := Signature {
  required : list string;
  defaults : list (string * value);
  var_kw : bool
}.

Definition parameters (sg : signature) : list string :=
  required sg ++ map fst (defaults sg).

(** A tool instance: the attributes of [MCPTool] and the two abstract
    methods its class implements.  [execute_body] receives the bound
    arguments. *)
Record tool : Type := Tool {
  telemetry : MCPTool;
  get_schema : MCPTool -> value;
  execute_signature : signature;
  execute_body :
    gmap string value -> timestamp -> MCPTool -> MCPTool * outcome
}.

Definition with_telemetry (t : tool) (self : MCPTool) : tool :=
  {| telemetry := self;
     get_schema := get_schema t;
     execute_signature := execute_signature t;
     execute_body := execute_body t |}.

Record registry : Type := Registry {
  tools : gmap string tool;
  tool_schemas : gmap string value
}.

(** [SimpleToolRegistry.__init__] *)
Definition init : registry :=
  {| tools := ∅; tool_schemas := ∅ |}.

Definition register_tool (self : registry) (tool_instance : tool) : registry :=
  let n := name (telemetry tool_instance) in
  {| tools := <[n := tool_instance]> (tools self);
     tool_schemas :=
       <[n := get_schema tool_instance (telemetry tool_instance)]>
         (tool_schemas self) |}.

(** Binding [**kwargs] to the parameters of a bound method.  It fails with a
    [TypeError] ([None]) when [kwargs] names [self], names a parameter the
    method does not have while there is no [**kwargs] to collect it, or
    leaves a parameter without default unnamed.  Otherwise every parameter
    with a default that [kwargs] leaves out takes its default. *)
Definition bind (sg : signature) (kwargs : gmap string value)
    : option (gmap string value) :=
  if bool_decide ("self"%string ∈ dom kwargs) then None
  else if negb (var_kw sg) &&
          negb (bool_decide (dom kwargs ⊆ list_to_set (parameters sg)))
  then None
  else if negb (forallb (fun p => bool_decide (p ∈ dom kwargs)) (required sg))
  then None
  else Some (kwargs ∪ list_to_map (defaults sg)).

Section Dispatch.
(** [str(e)] of the [TypeError] of a failed binding: the interpreter's
    wording. *)
Variable type_error_message : signature -> gmap string value -> string.

(** The call of [tool.execute] with the keyword arguments [kwargs]. *)
Definition call_execute (t : tool) (kwargs : gmap string value)
    (now : timestamp) : tool * outcome :=
  match bind (execute_signature t) kwargs with
  | None => (t, Raises (type_error_message (execute_signature t) kwargs))
  | Some args =>
      let '(self', out) := execute_body t args now (telemetry t) in
      (with_telemetry t self', out)
  end.

Definition execute_tool (self : registry) (tool_name : string)
    (kwargs : gmap string value) (now : timestamp) : registry * outcome :=
  match tools self !! tool_name with
  | None =>
      (self, Returns (failure ("Tool '" +:+ tool_name +:+ "' not found")))
  | Some t =>
      let '(t', out) := call_execute t kwargs now in
      let self' :=
        {| tools := <[tool_name := t']> (tools self);
           tool_schemas := tool_schemas self |} in
      match out with
      | Returns r => (self', Returns r)
      | Raises e =>
          (self', Returns (failure ("Tool execution error: " +:+ e)))
      end
  end.

End Dispatch.

(** The exported statistics of the tool registered under a name. *)
Definition stats_of (self : registry) (tool_name : string) : option stats :=
  (fun t => get_stats (telemetry t)) <$> tools self !! tool_name.

End SimpleToolRegistry.

(** ** Tool classes as the registry sees them *)

Module Handlers.
Import BaseTool SimpleToolRegistry.

Section Calculator.
Variable py_eval : string -> CalculatorTool.eval_outcome.
(** What the body does with an [expression] that is not a [str]; the
    annotation [expression: str] excludes it and the model does not fix it. *)
Variable untyped_expression :
  value -> timestamp -> MCPTool -> MCPTool * outcome.

Definition calculator_signature : signature :=
  {| required := ["expression"%string]; defaults := []; var_kw := false |}.

Definition calculator : tool :=
  {| telemetry := CalculatorTool.new;
     get_schema := CalculatorTool.get_schema;
     execute_signature := calculator_signature;
     execute_body := fun args now self =>
       match args !! "expression"%string with
       | Some (VStr expression) =>
           let '(self', r) :=
             CalculatorTool.execute py_eval self expression now in
           (self', Returns r)
       | Some v => untyped_expression v now self
       | None => (self, Raises "expression") (* excluded by [bind] *)
       end |}.

End Calculator.

End Handlers.

(** ** Result envelopes *)

Definition is_success (r : dict) : Prop :=
  dict_get "success" r = Some (VBool true).

Definition is_failure (r : dict) : Prop :=
  dict_get "success" r = Some (VBool false) /\
  exists msg, dict_get "error" r = Some (VStr msg).

(** ** Concrete inputs used by the examples *)

Module Examples.
Import BaseTool SimpleToolRegistry.

(** Four failures in a row on a fresh tool. *)
Definition four_failures : list call :=
  [Call false (Some "e1"%string) 1; Call false (Some "e2"%string) 2;
   Call false (Some "e3"%string) 3; Call false (Some "e4"%string) 4].

(** A stand-in for the interpreter's wording of a binding error; the
    examples below do not depend on it. *)
Definition binding_error (sg : signature) (kwargs : gmap string value)
    : string :=
  "execute() missing required positional arguments".

(** An evaluator-independent stand-in for an [expression] that is not a
    [str]; the examples below never reach it. *)
Definition no_untyped (v : value) (now : timestamp) (self : MCPTool)
    : MCPTool * outcome :=
  (self, Raises "expression is not a str").

(** A registry that holds the calculator only. *)
Definition calculator_registry : registry :=
  register_tool init
    (Handlers.calculator CalculatorTool.arith_py_eval no_untyped).

(** The calculator after four failures in a row. *)
Definition after_four_failures : MCPTool :=
  log_calls (BaseTool.init "calculator" "Perform mathematical calculations")
    four_failures.

(** The calculator invoked through the registry without [expression]. *)
Definition call_without_expression : registry * outcome :=
  execute_tool binding_error calculator_registry "calculator" ∅ 9.

(** An unregistered name invoked through the registry. *)
Definition call_unregistered : registry * outcome :=
  execute_tool binding_error calculator_registry "does_not_exist" ∅ 9.

End Examples.

(** ** Python built-ins used by the remaining tools *)

Module PyBuiltins.

(** A byte that continues a UTF-8 character. *)
Definition is_continuation (c : ascii) : bool :=
  let n := Z.of_nat (nat_of_ascii c) in (128 <=? n) && (n <? 192).

(** [len(s)] for a [str], carried here in UTF-8: the number of characters,
    that is of bytes that do not continue one. *)
Definition str_len (s : string) : Z :=
  Z.of_nat
    (length
       (List.filter (fun c => negb (is_continuation c))
          (list_ascii_of_string s))).

(** [len(v)]: the length, or [str(e)] of the [TypeError] for a value that
    has none. *)
Definition py_len (v : value) : Z + string :=
  match v with
  | VStr s => inl (str_len s)
  | VList items => inl (Z.of_nat (length items))
  | VTuple items => inl (Z.of_nat (length items))
  | VDict items => inl (Z.of_nat (length items))
  | _ =>
      inr ("object of type '" +:+ JSONProcessorTool.type_name v +:+
           "' has no len()")%string
  end.

(** The one-character string of a line feed. *)
Definition newline : string := String "010"%char EmptyString.

(** [s.split(sep)] for a one-character separator. *)
Fixpoint split_on (sep : ascii) (s : string) : list string :=
  match s with
  | EmptyString => [EmptyString]
  | String c rest =>
      if Ascii.eqb c sep then EmptyString :: split_on sep rest
      else
        match split_on sep rest with
        | piece :: pieces => String c piece :: pieces
        | [] => [String c EmptyString]
        end
  end.

(** [l[:n]] for an [int] [n]: a negative [n] counts from the end. *)
Definition slice_to {A : Type} (n : Z) (l : list A) : list A :=
  if 0 <=? n then take (Z.to_nat n) l
  else take (Z.to_nat (Z.of_nat (length l) + n)) l.

End PyBuiltins.

(** ** office_tools.py: calendar and presentations

    A method that reads the clock twice takes both readings, [now] then
    [now']; the [try] block of an [execute] also hands on the reading its
    [except] clause would see. *)

Module CalendarTool.
Import BaseTool PyBuiltins.

Definition new : MCPTool :=
  init "calendar_tool" "Create meeting invites and manage calendar events".

Definition operation_enum : list string :=
  ["create_meeting"; "check_availability"; "list_events";
   "send_invite"]%string.

Section Execute.
(** [t.strftime(format)] *)
Variable strftime : string -> timestamp -> string.

Definition _create_meeting (self : MCPTool)
    (title start_time end_time attendees description location : value)
    (now now' : timestamp) : MCPTool * outcome :=
  let meeting_data : dict :=
    [("title"%string, title);
     ("start_time"%string, start_time);
     ("end_time"%string, end_time);
     ("attendees"%string, attendees);
     ("description"%string, description);
     ("location"%string, location);
     ("meeting_id"%string,
      VStr ("meeting_" +:+ strftime "%Y%m%d_%H%M%S" now'))] in
  (log_call self true None now,
   Returns
     [("success"%string, VBool true);
      ("operation"%string, VStr "create_meeting");
      ("meeting"%string, VDict meeting_data);
      ("message"%string, VStr "Meeting created successfully (demo mode)");
      ("note"%string,
       VStr "Demo mode - replace with actual calendar API integration")]).

Definition _send_invite (self : MCPTool) (title start_time attendees : value)
    (now : timestamp) : MCPTool * outcome :=
  (log_call self true None now,
   match py_len attendees with
   | inl invites_sent =>
       Returns
         [("success"%string, VBool true);
          ("operation"%string, VStr "send_invite");
          ("title"%string, title);
          ("start_time"%string, start_time);
          ("attendees"%string, attendees);
          ("invites_sent"%string, VInt invites_sent);
          ("message"%string,
           VStr "Invitations sent successfully (demo mode)");
          ("note"%string,
           VStr "Demo mode - replace with actual email/calendar integration")]
   | inr e => Raises e
   end).

(** The [try] block of [execute].  The class defines neither
    [_check_availability] nor [_list_events]. *)
Definition execute_try (self : MCPTool) (operation : string)
    (kwargs : gmap string value) (now now' : timestamp)
    : MCPTool * outcome * timestamp :=
  if String.eqb operation "create_meeting" then
    (_create_meeting self
       (kwargs_get kwargs "title" VNone)
       (kwargs_get kwargs "start_time" VNone)
       (kwargs_get kwargs "end_time" VNone)
       (kwargs_get kwargs "attendees" (VList []))
       (kwargs_get kwargs "description" (VStr ""))
       (kwargs_get kwargs "location" (VStr "")) now now', now')
  else if String.eqb operation "send_invite" then
    (_send_invite self
       (kwargs_get kwargs "title" VNone)
       (kwargs_get kwargs "start_time" VNone)
       (kwargs_get kwargs "attendees" (VList [])) now, now')
  else if String.eqb operation "check_availability" then
    (self, Raises (attribute_error "CalendarTool" "_check_availability"),
     now)
  else if String.eqb operation "list_events" then
    (self, Raises (attribute_error "CalendarTool" "_list_events"), now)
  else
    (self, Returns (failure ("Unknown operation: " +:+ operation)), now).

Definition execute (self : MCPTool) (operation : string)
    (kwargs : gmap string value) (now now' : timestamp) : MCPTool * dict :=
  match execute_try self operation kwargs now now' with
  | (self', Returns r, _) => (self', r)
  | (self', Raises e, next) =>
      let error_msg := ("Calendar operation error: " +:+ e)%string in
      (log_call self' false (Some error_msg) next, failure error_msg)
  end.

End Execute.
End CalendarTool.

Module PowerPointTool.
Import BaseTool PyBuiltins.

Definition new : MCPTool :=
  init "powerpoint_tool" "Create and manipulate PowerPoint presentations".

Definition operation_enum : list string :=
  ["create_presentation"; "add_slide"; "add_content";
   "save_presentation"]%string.

Section Execute.
Variable strftime : string -> timestamp -> string.

Definition _create_presentation (self : MCPTool) (title : value)
    (now now' : timestamp) : MCPTool * outcome :=
  (log_call self true None now,
   Returns
     [("success"%string, VBool true);
      ("operation"%string, VStr "create_presentation");
      ("title"%string, title);
      ("presentation_id"%string,
       VStr ("ppt_" +:+ strftime "%Y%m%d_%H%M%S" now'));
      ("message"%string,
       VStr "Presentation created successfully (demo mode)");
      ("note"%string,
       VStr "Demo mode - replace with actual PowerPoint COM automation or python-pptx")]).

Definition _add_slide (self : MCPTool) (title content template : value)
    (now : timestamp) : MCPTool * outcome :=
  (log_call self true None now,
   match py_len content with
   | inl content_items =>
       Returns
         [("success"%string, VBool true);
          ("operation"%string, VStr "add_slide");
          ("title"%string, title);
          ("content_items"%string, VInt content_items);
          ("template"%string, template);
          ("slide_number"%string, VInt 1);
          ("message"%string, VStr "Slide added successfully (demo mode)")]
   | inr e => Raises e
   end).

(** The [try] block of [execute].  It has no branch for [add_content] and
    the class defines no [_save_presentation]. *)
Definition execute_try (self : MCPTool) (operation : string)
    (kwargs : gmap string value) (now now' : timestamp)
    : MCPTool * outcome * timestamp :=
  if String.eqb operation "create_presentation" then
    (_create_presentation self
       (kwargs_get kwargs "title" (VStr "New Presentation")) now now', now')
  else if String.eqb operation "add_slide" then
    (_add_slide self
       (kwargs_get kwargs "title" VNone)
       (kwargs_get kwargs "content" (VList []))
       (kwargs_get kwargs "template" (VStr "blank")) now, now')
  else if String.eqb operation "save_presentation" then
    (self, Raises (attribute_error "PowerPointTool" "_save_presentation"),
     now)
  else
    (self, Returns (failure ("Unknown operation: " +:+ operation)), now).

Definition execute (self : MCPTool) (operation : string)
    (kwargs : gmap string value) (now now' : timestamp) : MCPTool * dict :=
  match execute_try self operation kwargs now now' with
  | (self', Returns r, _) => (self', r)
  | (self', Raises e, next) =>
      let error_msg := ("PowerPoint operation error: " +:+ e)%string in
      (log_call self' false (Some error_msg) next, failure error_msg)
  end.

End Execute.
End PowerPointTool.

(** ** office_tools.py: meeting summaries *)

Module MeetingSummarizerTool.
Import BaseTool PyBuiltins.

Definition new : MCPTool :=
  init "meeting_summarizer"
    "Generate structured meeting summaries from transcripts or notes".

(** The enum the schema declares for [format]. *)
Definition format_enum : list string :=
  ["structured"; "bullet_points"; "action_items"; "executive"]%string.

Definition action_keywords : list string :=
  ["action:"; "todo:"; "follow up:"; "next steps:"; "assign"]%string.

Definition decisions_keywords : list string :=
  ["decided:"; "agreed:"; "conclusion:"; "resolution:"]%string.

(** [any(keyword in line_lower for keyword in keywords)] *)
Definition mentions (keywords : list string) (line_lower : string) : bool :=
  existsb (fun keyword => str_contains keyword line_lower) keywords.

(** [enumerate(l, start)] *)
Fixpoint enumerate {A : Type} (l : list A) (start : Z) : list (Z * A) :=
  match l with
  | [] => []
  | x :: l' => (start, x) :: enumerate l' (start + 1)
  end.

(** [summary += f(x)] for every [x] of [l], in order. *)
Definition append_each {A : Type} (f : A -> string) (l : list A)
    (summary : string) : string :=
  fold_left (fun acc x => (acc +:+ f x)%string) l summary.

(** [len(l)] rendered by an f-string. *)
Definition count_str {A : Type} (l : list A) : string :=
  pretty (Z.of_nat (length l)).

Section Execute.
(** [s.lower()], [s.strip()] and [t.strftime(format)]. *)
Variable lower : string -> string.
Variable strip : string -> string.
Variable strftime : string -> timestamp -> string.
(** [str(e)] of the [UnboundLocalError] for a local name read before it is
    assigned: the interpreter's wording. *)
Variable unbound_local_error : string -> string.

(** The loop over the lines: action items, decisions and key points, each
    in the order of the lines. *)
Fixpoint classify (lines : list string)
    : list string * list string * list string :=
  match lines with
  | [] => ([], [], [])
  | line :: rest =>
      let '(action_items, decisions, key_points) := classify rest in
      let line_lower := strip (lower line) in
      if mentions action_keywords line_lower then
        (strip line :: action_items, decisions, key_points)
      else if mentions decisions_keywords line_lower then
        (action_items, strip line :: decisions, key_points)
      else if 20 <? str_len (strip line) then
        (action_items, decisions, strip line :: key_points)
      else (action_items, decisions, key_points)
  end.

Definition _generate_structured_summary (title : string)
    (attendees : option (list string)) (points decisions actions : list string)
    (now : timestamp) : string :=
  let summary :=
    ("# Meeting Summary: " +:+ title +:+ newline +:+ newline)%string in
  let summary :=
    (summary +:+ "**Date:** " +:+ strftime "%Y-%m-%d %H:%M" now +:+
     newline)%string in
  let summary :=
    match attendees with
    | Some (a :: l) =>
        (summary +:+ "**Attendees:** " +:+ String.concat ", " (a :: l) +:+
         newline +:+ newline)%string
    | _ => summary
    end in
  let summary := (summary +:+ "## Key Discussion Points" +:+ newline)%string in
  let summary :=
    append_each
      (fun ip => (pretty (fst ip) +:+ ". " +:+ snd ip +:+ newline)%string)
      (enumerate (slice_to 5 points) 1) summary in
  let summary :=
    match decisions with
    | [] => summary
    | _ :: _ =>
        append_each (fun decision => ("- " +:+ decision +:+ newline)%string)
          decisions
          (summary +:+ newline +:+ "## Decisions Made" +:+ newline)%string
    end in
  match actions with
  | [] => summary
  | _ :: _ =>
      append_each (fun action => ("- [ ] " +:+ action +:+ newline)%string)
        actions (summary +:+ newline +:+ "## Action Items" +:+ newline)%string
  end.

Definition _generate_bullet_summary (points actions : list string) : string :=
  let summary := ("## Meeting Highlights" +:+ newline)%string in
  let summary :=
    append_each (fun point => ("• " +:+ point +:+ newline)%string)
      (slice_to 8 points) summary in
  match actions with
  | [] => summary
  | _ :: _ =>
      append_each (fun action => ("→ " +:+ action +:+ newline)%string)
        actions (summary +:+ newline +:+ "## Next Steps" +:+ newline)%string
  end.

Definition _generate_action_summary (actions : list string) : string :=
  match actions with
  | [] => "No specific action items identified in this meeting."
  | _ :: _ =>
      append_each
        (fun ia =>
           ("**" +:+ pretty (fst ia) +:+ ".** " +:+ snd ia +:+ newline +:+
            "   - Status: Pending" +:+ newline +:+
            "   - Due Date: TBD" +:+ newline +:+ newline)%string)
        (enumerate actions 1)
        ("## Action Items Summary" +:+ newline +:+ newline)%string
  end.

Definition _generate_executive_summary (title : string)
    (decisions actions : list string) : string :=
  let summary :=
    ("## Executive Summary: " +:+ title +:+ newline +:+ newline)%string in
  let summary :=
    (summary +:+ "**Meeting Overview:** " +:+ count_str decisions +:+
     " key decisions made, ")%string in
  let summary :=
    (summary +:+ count_str actions +:+ " action items identified." +:+
     newline +:+ newline)%string in
  let summary :=
    match decisions with
    | [] => summary
    | _ :: _ =>
        append_each (fun decision => ("- " +:+ decision +:+ newline)%string)
          (slice_to 3 decisions)
          (summary +:+ "**Key Outcomes:**" +:+ newline)%string
    end in
  match actions with
  | [] => summary
  | _ :: _ =>
      (summary +:+ newline +:+ "**Critical Actions:** " +:+
       count_str actions +:+ " items require follow-up." +:+ newline)%string
  end.

(** The summary chosen by [format] and the clock reading left for
    [log_call]; [None] when no branch assigns [summary]. *)
Definition summary_for (format meeting_title : string)
    (attendees : option (list string))
    (key_points decisions action_items : list string)
    (now now' : timestamp) : option string * timestamp :=
  if String.eqb format "structured" then
    (Some (_generate_structured_summary meeting_title attendees
             key_points decisions action_items now), now')
  else if String.eqb format "bullet_points" then
    (Some (_generate_bullet_summary key_points action_items), now)
  else if String.eqb format "action_items" then
    (Some (_generate_action_summary action_items), now)
  else if String.eqb format "executive" then
    (Some (_generate_executive_summary meeting_title decisions action_items),
     now)
  else (None, now).

(** [execute]: [log_call(True)] runs before the result dictionary reads
    [summary]; reading it unassigned raises and the [except] clause logs a
    second time, at the reading [now']. *)
Definition execute (self : MCPTool) (meeting_content meeting_title : string)
    (attendees : option (list string)) (format : string)
    (now now' : timestamp) : MCPTool * dict :=
  let lines := split_on "010"%char meeting_content in
  let '(action_items, decisions, key_points) := classify lines in
  match summary_for format meeting_title attendees
          key_points decisions action_items now now' with
  | (Some summary, t) =>
      (log_call self true None t,
       [("success"%string, VBool true);
        ("meeting_title"%string, VStr meeting_title);
        ("summary"%string, VStr summary);
        ("action_items_count"%string,
         VInt (Z.of_nat (length action_items)));
        ("decisions_count"%string, VInt (Z.of_nat (length decisions)));
        ("format"%string, VStr format)])
  | (None, t) =>
      let error_msg :=
        ("Summarization error: " +:+ unbound_local_error "summary")%string in
      (log_call (log_call self true None t) false (Some error_msg) now',
       failure error_msg)
  end.

End Execute.
End MeetingSummarizerTool.

(** ** file_tools.py

    The operating system is a parameter: what [os.path.exists], [open] with
    [readlines], [os.path.getsize], [os.path.dirname], [os.makedirs] and
    [open] with [write] answer. *)

(** What a call into the operating system does: a result, or an
    [Exception] carried as [str(e)]. *)
Inductive os_result (A : Type) : Type :=
  | OsOk (a : A)
  | OsError (e : string).
Arguments OsOk {A} a.
Arguments OsError {A} e.

Module FileReaderTool.
Import BaseTool PyBuiltins.

Definition new : MCPTool := init "file_reader" "Read contents of a text file".

Section Execute.
Variable path_exists : string -> bool.
(** [open(file_path, 'r', encoding='utf-8')] followed by [readlines()]. *)
Variable read_lines : string -> os_result (list string).
Variable getsize : string -> os_result Z.

(** The [except] clause. *)
Definition on_error (self : MCPTool) (e : string) (now : timestamp)
    : MCPTool * dict :=
  let error_msg := ("Error reading file: " +:+ e)%string in
  (log_call self false (Some error_msg) now, failure error_msg).

Definition execute (self : MCPTool) (file_path : string) (max_lines : Z)
    (now now' : timestamp) : MCPTool * dict :=
  if negb (path_exists file_path) then
    (log_call self false (Some ("File not found: " +:+ file_path)%string) now,
     failure ("File not found: " +:+ file_path))
  else
    match read_lines file_path with
    | OsError e => on_error self e now
    | OsOk all_lines =>
        let lines := slice_to max_lines all_lines in
        let content := String.concat "" lines in
        let self1 := log_call self true None now in
        match getsize file_path with
        | OsOk file_size =>
            (self1,
             [("success"%string, VBool true);
              ("content"%string, VStr content);
              ("lines_read"%string, VInt (Z.of_nat (length lines)));
              ("file_size"%string, VInt file_size)])
        | OsError e => on_error self1 e now'
        end
    end.

End Execute.
End FileReaderTool.

Module FileWriterTool.
Import BaseTool.

Definition new : MCPTool := init "file_writer" "Write content to a text file".

Section Execute.
(** The state of the file system. *)
Variable fs : Type.
Variable dirname : string -> string.
(** [os.makedirs(dir_path, exist_ok=True)]: the state it leaves and the
    exception it raises, if any. *)
Variable makedirs : fs -> string -> fs * option string.
(** [open(file_path, mode, encoding='utf-8')] followed by [write(content)];
    the flag is [append]. *)
Variable write_text : fs -> string -> bool -> string -> fs * option string.

Definition on_error (self : MCPTool) (e : string) (now : timestamp)
    : MCPTool * dict :=
  let error_msg := ("Error writing file: " +:+ e)%string in
  (log_call self false (Some error_msg) now, failure error_msg).

Definition execute (self : MCPTool) (disk : fs)
    (file_path content : string) (append : bool) (now : timestamp)
    : MCPTool * dict * fs :=
  let dir_path := dirname file_path in
  let '(disk1, raised) :=
    if String.eqb dir_path "" then (disk, None)
    else makedirs disk dir_path in
  match raised with
  | Some e => (on_error self e now, disk1)
  | None =>
      match write_text disk1 file_path append content with
      | (disk2, Some e) => (on_error self e now, disk2)
      | (disk2, None) =>
          (log_call self true None now,
           [("success"%string, VBool true);
            ("message"%string,
             VStr ("Successfully " +:+
                   (if append then "appended to" else "wrote") +:+ " " +:+
                   file_path));
            ("bytes_written"%string,
             VInt (Z.of_nat (String.length content)))],
           disk2)
      end
  end.

End Execute.
End FileWriterTool.

(** ** Runs of telemetry updates *)

Module Runs.
Import BaseTool.

(** The call records an error: it failed and carries a non-empty
    message. *)
Definition records_error (c : call) : bool :=
  negb (call_success c) && truthy (call_error c).

End Runs.

(** ** Stand-ins for the interpreter and the operating system

    Concrete values for the parameters of the models, used where a property
    is instantiated. *)

Module StandIns.
Import BaseTool.

(** [lower] and [strip] on ASCII text. *)
Definition ascii_lower_char (c : ascii) : ascii :=
  let n := nat_of_ascii c in
  if ((65 <=? n) && (n <=? 90))%nat then ascii_of_nat (n + 32) else c.

Definition ascii_lower (s : string) : string :=
  string_of_list_ascii (map ascii_lower_char (list_ascii_of_string s)).

Definition is_blank (c : ascii) : bool :=
  let n := nat_of_ascii c in
  ((n =? 32) || ((9 <=? n) && (n <=? 13)))%nat.

Fixpoint drop_blanks (cs : list ascii) : list ascii :=
  match cs with
  | c :: cs' => if is_blank c then drop_blanks cs' else cs
  | [] => []
  end.

Definition ascii_strip (s : string) : string :=
  string_of_list_ascii
    (rev (drop_blanks (rev (drop_blanks (list_ascii_of_string s))))).

(** A rendering of the clock that ignores the format. *)
Definition plain_strftime (format : string) (t : timestamp) : string :=
  pretty t.

Definition unbound_local (name : string) : string :=
  ("cannot access local variable '" +:+ name +:+
   "' where it is not associated with a value")%string.

(** A directory that holds [notes.txt], three lines long. *)
Definition notes_exists (path : string) : bool := String.eqb path "notes.txt".

Definition notes_lines (path : string) : os_result (list string) :=
  if String.eqb path "notes.txt"
  then OsOk ["one" +:+ PyBuiltins.newline; "two" +:+ PyBuiltins.newline;
             "three" +:+ PyBuiltins.newline]%string
  else OsError "[Errno 2] No such file or directory".

Definition notes_size (path : string) : os_result Z :=
  if String.eqb path "notes.txt" then OsOk 14
  else OsError "[Errno 2] No such file or directory".

(** The file is gone by the time its size is asked for. *)
Definition size_gone (path : string) : os_result Z :=
  OsError "[Errno 2] No such file or directory".

(** A flat file system: the text of each file; directories are not
    tracked. *)
Definition flat_dirname (path : string) : string := "".

Definition flat_makedirs (disk : gmap string string) (dir_path : string)
    : gmap string string * option string :=
  (disk, None).

Definition flat_write (disk : gmap string string) (path : string)
    (append : bool) (content : string) : gmap string string * option string :=
  (<[path :=
       if append then (default ""%string (disk !! path) +:+ content)%string
       else content]> disk,
   None).

(** A file system whose directory [locked] cannot be created. *)
Definition locked_dirname (path : string) : string := "locked".

Definition locked_makedirs (disk : gmap string string) (dir_path : string)
    : gmap string string * option string :=
  (disk, Some "[Errno 13] Permission denied: 'locked'"%string).

(** A stand-in for [json.loads] that knows one object, of two keys. *)
Definition quote : string := String "034"%char EmptyString.

Definition sample_json : string :=
  ("{" +:+ quote +:+ "tools" +:+ quote +:+ ": 9, " +:+
   quote +:+ "status" +:+ quote +:+ ": " +:+
   quote +:+ "active" +:+ quote +:+ "}")%string.

Definition sample_data : list (string * value) :=
  [("tools"%string, VInt 9); ("status"%string, VStr "active")].

Definition loads_sample (json_data : string)
    : JSONProcessorTool.loads_outcome :=
  if String.eqb json_data sample_json
  then JSONProcessorTool.Loaded (VDict sample_data)
  else JSONProcessorTool.JSONDecodeError
         "Expecting value: line 1 column 1 (char 0)".

End StandIns.

(** * Properties *)

(** ** Telemetry *)

Section Telemetry.
Import BaseTool Examples.

Lemma log_call_call_count self success error now :
  call_count (log_call self success error now) = call_count self + 1.
Proof. reflexivity. Qed.

Lemma log_call_last_called self success error now :
  last_called (log_call self success error now) = Some now.
Proof. reflexivity. Qed.

Lemma log_call_errors self success error now :
  errors (log_call self success error now) =
  errors self ++ recorded [Call success error now].
Proof.
  unfold recorded; simpl.
  destruct error as [e|]; simpl; [|by rewrite app_nil_r].
  destruct (negb success && negb (String.eqb e ""));
    simpl; by rewrite ?app_nil_r.
Qed.

Lemma recorded_app calls1 calls2 :
  recorded (calls1 ++ calls2) = recorded calls1 ++ recorded calls2.
Proof. unfold recorded. apply flat_map_app. Qed.

Lemma recorded_length calls : (length (recorded calls) <= length calls)%nat.
Proof.
  induction calls as [|c calls IH]; simpl; [lia|].
  rewrite length_app.
  destruct (call_error c); simpl; [|lia].
  destruct (negb (call_success c) && _); simpl; lia.
Qed.

Lemma log_calls_errors calls : forall self,
  errors (log_calls self calls) = errors self ++ recorded calls.
Proof.
  induction calls as [|c calls IH]; intros self; simpl.
  - by rewrite app_nil_r.
  - destruct c as [s e n].
    change (log_calls self (Call s e n :: calls))
      with (log_calls (log_call self s e n) calls).
    rewrite IH, log_call_errors, <- app_assoc. f_equal.
    symmetry. apply (recorded_app [Call s e n] calls).
Qed.

Lemma log_calls_call_count calls : forall self,
  call_count (log_calls self calls) =
  call_count self + Z.of_nat (length calls).
Proof.
  induction calls as [|c calls IH]; intros self; simpl; [lia|].
  unfold log_calls in *; simpl. rewrite IH, log_call_call_count. lia.
Qed.

Lemma slice_last_length {A} (n : nat) (l : list A) :
  length (slice_last n l) = Nat.min n (length l).
Proof. unfold slice_last. rewrite length_drop. lia. Qed.

Lemma slice_last_suffix {A} (n : nat) (l : list A) :
  l = take (length l - n) l ++ slice_last n l.
Proof. unfold slice_last. by rewrite take_drop. Qed.

Lemma get_stats_recent_errors self :
  recent_errors (get_stats self) = slice_last 3 (errors self).
Proof. unfold get_stats; simpl. by destruct (errors self). Qed.

(** C1, as stated, fails: after four recorded failures on a fresh tool
    the stored error list [self.errors] holds four entries, and the exported [error_count]
    is 4; only the exported [recent_errors] is cut to three. *)
Lemma C1_stored_errors_exceed_three :
  ~ (length (errors after_four_failures) <= 3)%nat /\
  length (errors after_four_failures) = 4%nat /\
  error_count (get_stats after_four_failures) = 4%nat /\
  map error (errors after_four_failures) = ["e1"; "e2"; "e3"; "e4"]%string /\
  map error (recent_errors (get_stats after_four_failures)) =
    ["e2"; "e3"; "e4"]%string.
Proof. vm_compute. repeat split; try reflexivity. lia. Qed.

(** C1, amended: for every tool and every run of telemetry updates, the
    stored error list keeps every recorded failure (it is the earlier list
    followed by the entries recorded since, oldest first) and [error_count]
    is its full length; the exported [recent_errors] holds at most 3
    entries, namely the last [min 3 (len errors)] of the stored list in
    their order, so from the fourth failure on the oldest entry leaves the
    export first. *)
Theorem C1_recent_errors_export_bounded (self : MCPTool) (calls : list call) :
  let t := log_calls self calls in
  errors t = errors self ++ recorded calls /\
  error_count (get_stats t) = length (errors t) /\
  (length (recent_errors (get_stats t)) <= 3)%nat /\
  length (recent_errors (get_stats t)) = Nat.min 3 (length (errors t)) /\
  errors t =
    take (length (errors t) - 3) (errors t) ++ recent_errors (get_stats t).
Proof.
  intros t. split; [apply log_calls_errors|].
  split; [reflexivity|].
  rewrite get_stats_recent_errors, slice_last_length.
  split; [lia|]. split; [reflexivity|]. apply slice_last_suffix.
Qed.

(** C9: [call_count >= len(errors)] holds for a freshly constructed tool and
    is preserved by [log_call] with any success flag, error message and
    clock reading; every update increments [call_count] by one and leaves
    the error list alone or appends one entry to it. *)
Theorem C9_call_count_bounds_errors :
  (forall n d, invariant (init n d)) /\
  (forall self success error now,
     invariant self ->
     invariant (log_call self success error now) /\
     call_count (log_call self success error now) = call_count self + 1 /\
     (errors (log_call self success error now) = errors self \/
      exists entry,
        errors (log_call self success error now) = errors self ++ [entry])).
Proof.
  split; [intros n d; unfold invariant; simpl; lia|].
  intros self success error now Hinv. unfold invariant in *. simpl.
  destruct error as [e|]; simpl.
  - destruct (negb success && negb (String.eqb e "")); simpl.
    + rewrite length_app; simpl. repeat split; [lia|]. right. by eexists.
    + repeat split; [lia|]. by left.
  - repeat split; [lia|]. by left.
Qed.

Lemma C9_call_count_bounds_errors_witness :
  invariant (log_call (init "calculator" "Perform mathematical calculations")
               false (Some "Invalid characters in expression"%string) 7).
Proof.
  apply (proj2 C9_call_count_bounds_errors
           (init "calculator" "Perform mathematical calculations")
           false (Some "Invalid characters in expression"%string) 7).
  unfold invariant; simpl; lia.
Defined.

(** C10: [log_call] with [success = False] and no error message ([None])
    increments [call_count] and sets [last_called] but leaves the error
    list as it is, so the failure is absent from [recent_errors] and from
    [error_count]; the same holds for the empty message, whereas a
    non-empty message is appended. *)
Theorem C10_failure_without_message_not_recorded
    (self : MCPTool) (now : timestamp) :
  call_count (log_call self false None now) = call_count self + 1 /\
  last_called (log_call self false None now) = Some now /\
  errors (log_call self false None now) = errors self /\
  error_count (get_stats (log_call self false None now)) =
    error_count (get_stats self) /\
  recent_errors (get_stats (log_call self false None now)) =
    recent_errors (get_stats self) /\
  errors (log_call self false (Some ""%string) now) = errors self /\
  (forall c msg,
     errors (log_call self false (Some (String c msg)) now) =
     errors self ++ [ {| time := now; error := String c msg |} ]).
Proof. repeat split. Qed.

End Telemetry.

(** ** Tool bodies *)

Section Tools.
Import BaseTool.

Lemma is_failure_failure msg : is_failure (failure msg).
Proof. split; [reflexivity|]. by exists msg. Qed.

Lemma failure_not_success msg : ~ is_success (failure msg).
Proof. unfold is_success; simpl. discriminate. Qed.

(** On an operation of the declared enum, [EmailIntegrationTool.execute]
    updates the telemetry exactly once. *)
Lemma email_declared_operation_logged self operation email_config kwargs now :
  In operation EmailIntegrationTool.operation_enum ->
  call_count
    (EmailIntegrationTool.execute self operation email_config kwargs now).1 =
  call_count self + 1.
Proof.
  simpl. intros [<-|[<-|[<-|[<-|[]]]]]; reflexivity.
Qed.

(** On every other operation it returns a failure and leaves the tool as it
    was. *)
Lemma email_unknown_operation self operation email_config kwargs now :
  ~ In operation EmailIntegrationTool.operation_enum ->
  EmailIntegrationTool.execute self operation email_config kwargs now =
  (self, failure ("Unknown operation: " +:+ operation)).
Proof.
  intros Hnot. unfold EmailIntegrationTool.execute,
    EmailIntegrationTool.execute_try.
  repeat lazymatch goal with
  | |- context [String.eqb operation ?s] =>
      destruct (String.eqb_spec operation s) as [->|_];
      [exfalso; apply Hnot; simpl; tauto|]
  end.
  reflexivity.
Qed.

Lemma slack_unknown_operation self operation token kwargs now :
  ~ In operation SlackIntegrationTool.operation_enum ->
  SlackIntegrationTool.execute self operation token kwargs now =
  (self, failure ("Unknown operation: " +:+ operation)).
Proof.
  intros Hnot. unfold SlackIntegrationTool.execute,
    SlackIntegrationTool.execute_try.
  repeat lazymatch goal with
  | |- context [String.eqb operation ?s] =>
      destruct (String.eqb_spec operation s) as [->|_];
      [exfalso; apply Hnot; simpl; tauto|]
  end.
  reflexivity.
Qed.

(** C2: the claim asks for exactly one telemetry update per invocation that
    reaches a tool instance.  [EmailIntegrationTool.execute] called with
    [operation = "archive"], a value outside its enum, returns the failure
    [Unknown operation: archive] without any update: the tool comes back
    unchanged, [call_count] and [last_called] included. *)
Theorem C2_email_unknown_operation_not_logged
    (self : MCPTool) (email_config : value) (kwargs : gmap string value)
    (now : timestamp) :
  let '(self', r) :=
    EmailIntegrationTool.execute self "archive" email_config kwargs now in
  r = failure "Unknown operation: archive" /\
  self' = self /\
  call_count self' = call_count self /\
  call_count self' <> call_count self + 1 /\
  last_called self' = last_called self.
Proof. simpl. repeat split. lia. Qed.

(** An unknown operation on parsed JSON, for every operation outside the
    enum: [JSONProcessorTool.execute] logs a success and answers
    [success: True]. *)
Lemma json_unknown_operation json_loads json_dumps
    self json_data operation key_path data now :
  json_loads json_data = JSONProcessorTool.Loaded data ->
  ~ In operation JSONProcessorTool.operation_enum ->
  JSONProcessorTool.execute json_loads json_dumps
    self json_data operation key_path now =
  (log_call self true None now,
   [("success"%string, VBool true);
    ("operation"%string, VStr operation);
    ("result"%string,
     VDict [("error"%string, VStr ("Unknown operation: " +:+ operation))])]).
Proof.
  intros Hload Hnot. unfold JSONProcessorTool.execute. rewrite Hload.
  repeat lazymatch goal with
  | |- context [String.eqb operation ?s] =>
      destruct (String.eqb_spec operation s) as [->|_];
      [exfalso; apply Hnot; simpl; tauto|]
  end.
  reflexivity.
Qed.

(** C3: the claim asks for a Failure on an operation outside the enum.
    [JSONProcessorTool.execute] on JSON that parses, with
    [operation = "bogus"], answers [success: True] with the message tucked
    into [result], and logs the call as a success: no entry is added to the
    error list. *)
Theorem C3_json_unknown_operation_reports_success
    (json_loads : string -> JSONProcessorTool.loads_outcome)
    (json_dumps : value -> string)
    (self : MCPTool) (json_data key_path : string) (data : value)
    (now : timestamp) :
  json_loads json_data = JSONProcessorTool.Loaded data ->
  let out :=
    JSONProcessorTool.execute json_loads json_dumps
      self json_data "bogus" key_path now in
  is_success out.2 /\
  ~ is_failure out.2 /\
  dict_get "result" out.2 =
    Some (VDict [("error"%string, VStr "Unknown operation: bogus")]) /\
  out.1 = log_call self true None now /\
  errors out.1 = errors self.
Proof.
  intros Hload out. subst out.
  rewrite (json_unknown_operation _ _ _ _ "bogus" _ data) by
    (try assumption; simpl; intros H; repeat destruct H as [H|H];
     try discriminate H; exact H).
  simpl. repeat split.
  intros [H _]. discriminate H.
Qed.

Lemma C3_json_unknown_operation_reports_success_witness :
  is_success
    (JSONProcessorTool.execute JSONProcessorTool.loads_empty
       (fun _ => "{}"%string) JSONProcessorTool.new "{}" "bogus" "" 5).2.
Proof.
  apply (C3_json_unknown_operation_reports_success
           JSONProcessorTool.loads_empty (fun _ => "{}"%string)
           JSONProcessorTool.new "{}" "" (VDict []) 5).
  reflexivity.
Defined.

(** C7: the calculator called with ["(10 + 5) * 2"] returns a Success whose
    [result] is 30, for every evaluator that agrees with integer arithmetic
    on that expression; the call is logged as a success. *)
Theorem C7_calculator_scenario
    (py_eval : string -> CalculatorTool.eval_outcome)
    (self : MCPTool) (now : timestamp) :
  CalculatorTool.agrees_on py_eval "(10 + 5) * 2" ->
  let out := CalculatorTool.execute py_eval self "(10 + 5) * 2" now in
  is_success out.2 /\
  dict_get "result" out.2 = Some (VInt 30) /\
  dict_get "expression" out.2 = Some (VStr "(10 + 5) * 2") /\
  out.1 = log_call self true None now.
Proof.
  intros Hagree out. subst out.
  unfold CalculatorTool.execute.
  rewrite (Hagree 30) by (vm_compute; reflexivity).
  replace (CalculatorTool.all_allowed "(10 + 5) * 2") with true
    by (vm_compute; reflexivity).
  simpl. repeat split.
Qed.

Lemma C7_calculator_scenario_witness :
  dict_get "result"
    (CalculatorTool.execute CalculatorTool.arith_py_eval
       CalculatorTool.new "(10 + 5) * 2" 3).2 = Some (VInt 30).
Proof.
  apply (C7_calculator_scenario CalculatorTool.arith_py_eval
           CalculatorTool.new 3).
  intros v Hv. unfold CalculatorTool.arith_py_eval. rewrite Hv. reflexivity.
Defined.

(** C8: a fresh calculator called with ["import os"] returns a Failure
    whose message contains [invalid characters], whatever the evaluator;
    afterwards [call_count] is 1 and [error_count] is 1. *)
Theorem C8_calculator_invalid_characters
    (py_eval : string -> CalculatorTool.eval_outcome) (now : timestamp) :
  let out :=
    CalculatorTool.execute py_eval CalculatorTool.new "import os" now in
  is_failure out.2 /\
  (exists msg, dict_get "error" out.2 = Some (VStr msg) /\
               str_contains "invalid characters" msg = true) /\
  call_count CalculatorTool.new = 0 /\
  errors CalculatorTool.new = [] /\
  stats_call_count (get_stats out.1) = 1 /\
  error_count (get_stats out.1) = 1%nat.
Proof.
  intros out. subst out. unfold CalculatorTool.execute.
  replace (CalculatorTool.all_allowed "import os") with false
    by (vm_compute; reflexivity).
  simpl. repeat split.
  - by eexists.
  - eexists. split; [reflexivity|]. vm_compute. reflexivity.
Qed.

End Tools.

(** ** The registry *)

Section Registry.
Import BaseTool SimpleToolRegistry Examples.

Lemma registry_insert_id (self : registry) tool_name t :
  tools self !! tool_name = Some t ->
  {| tools := <[tool_name := t]> (tools self);
     tool_schemas := tool_schemas self |} = self.
Proof. intros H. destruct self as [ts ss]; simpl in *. by rewrite insert_id. Qed.

(** Binding fails when a parameter without default is left out. *)
Lemma bind_missing_required sg (kwargs : gmap string value) p :
  In p (required sg) -> kwargs !! p = None -> bind sg kwargs = None.
Proof.
  intros Hin Hnone. unfold bind.
  destruct (bool_decide _); [reflexivity|].
  destruct (negb (var_kw sg) && _); [reflexivity|].
  destruct (forallb _ (required sg)) eqn:Hall; [|reflexivity].
  rewrite forallb_forall in Hall. specialize (Hall p Hin).
  apply bool_decide_eq_true in Hall.
  apply elem_of_dom in Hall. rewrite Hnone in Hall. by destruct Hall.
Qed.

(** C4, as stated, fails: the calculator, fresh in the registry, is invoked
    without its required [expression].  The caller gets a failure, but the
    tool's [call_count] is still 0, not 1, and its error list is still
    empty. *)
Lemma C4_missing_argument_leaves_telemetry :
  stats_call_count <$> stats_of calculator_registry "calculator" = Some 0 /\
  stats_call_count <$> stats_of call_without_expression.1 "calculator" =
    Some 0 /\
  stats_call_count <$> stats_of call_without_expression.1 "calculator" <>
    Some (0 + 1) /\
  error_count <$> stats_of call_without_expression.1 "calculator" =
    Some 0%nat /\
  recent_errors <$> stats_of call_without_expression.1 "calculator" =
    Some [] /\
  (exists r, call_without_expression.2 = Returns r /\ is_failure r).
Proof.
  vm_compute. repeat split; try discriminate.
  eexists. split; [reflexivity|]. split; [reflexivity|]. by eexists.
Qed.

(** C4, amended: for every registered tool whose [execute] has a parameter
    [p] without default, an invocation through the registry whose arguments
    leave [p] out returns the failure
    [Tool execution error: <binding error>] and leaves the registry, hence
    the tool's [call_count], [last_called] and error list, unchanged. *)
Theorem C4_missing_argument_fails_unrecorded
    (type_error_message : signature -> gmap string value -> string)
    (self : registry) (tool_name : string) (t : tool) (p : string)
    (kwargs : gmap string value) (now : timestamp) :
  tools self !! tool_name = Some t ->
  In p (required (execute_signature t)) ->
  kwargs !! p = None ->
  execute_tool type_error_message self tool_name kwargs now =
  (self,
   Returns
     (failure
        ("Tool execution error: " +:+
         type_error_message (execute_signature t) kwargs))) /\
  is_failure
    (failure
       ("Tool execution error: " +:+
        type_error_message (execute_signature t) kwargs)) /\
  stats_of
    (execute_tool type_error_message self tool_name kwargs now).1 tool_name =
  stats_of self tool_name.
Proof.
  intros Hreg Hin Hnone.
  assert (Heq : execute_tool type_error_message self tool_name kwargs now =
    (self,
     Returns
       (failure
          ("Tool execution error: " +:+
           type_error_message (execute_signature t) kwargs)))).
  { unfold execute_tool, call_execute. rewrite Hreg.
    rewrite (bind_missing_required _ _ p Hin Hnone).
    by rewrite (registry_insert_id _ _ _ Hreg). }
  rewrite Heq. split; [reflexivity|]. split; [apply is_failure_failure|].
  reflexivity.
Qed.

Lemma C4_missing_argument_fails_unrecorded_witness :
  (execute_tool binding_error calculator_registry "calculator" ∅ 9).1 =
  calculator_registry.
Proof.
  refine (f_equal fst
    (proj1 (C4_missing_argument_fails_unrecorded binding_error
              calculator_registry "calculator"
              (Handlers.calculator CalculatorTool.arith_py_eval no_untyped)
              "expression" ∅ 9 _ _ _))).
  - reflexivity.
  - simpl. left. reflexivity.
  - reflexivity.
Defined.

(** C5, as stated, fails on the wording of the failure: for the
    unregistered name [does_not_exist] the registry answers
    [Tool 'does_not_exist' not found], not
    [unknown capability: does_not_exist]. *)
Lemma C5_unknown_name_wording :
  call_unregistered.2 =
    Returns (failure "Tool 'does_not_exist' not found") /\
  call_unregistered.2 <>
    Returns (failure "unknown capability: does_not_exist").
Proof. vm_compute. split; [reflexivity|discriminate]. Qed.

(** C5, amended: for every name that is not in the registry and any
    arguments, [execute_tool] returns the failure [Tool '<name>' not found]
    and the registry it leaves is the one it found: no tool is added and no
    [call_count], [last_called] or error list of any tool changes. *)
Theorem C5_unknown_name_fails_untouched
    (type_error_message : signature -> gmap string value -> string)
    (self : registry) (tool_name : string)
    (kwargs : gmap string value) (now : timestamp) :
  tools self !! tool_name = None ->
  execute_tool type_error_message self tool_name kwargs now =
  (self, Returns (failure ("Tool '" +:+ tool_name +:+ "' not found"))) /\
  is_failure (failure ("Tool '" +:+ tool_name +:+ "' not found")) /\
  (forall other,
     stats_of
       (execute_tool type_error_message self tool_name kwargs now).1 other =
     stats_of self other).
Proof.
  intros Hnone. unfold execute_tool. rewrite Hnone.
  split; [reflexivity|]. split; [apply is_failure_failure|]. reflexivity.
Qed.

Lemma C5_unknown_name_fails_untouched_witness :
  (execute_tool binding_error calculator_registry "does_not_exist" ∅ 9).1 =
  calculator_registry.
Proof.
  refine (f_equal fst
    (proj1 (C5_unknown_name_fails_untouched binding_error
              calculator_registry "does_not_exist" ∅ 9 _))).
  reflexivity.
Defined.

(** C6: when the [execute] of a registered tool raises an exception [e],
    [execute_tool] returns the well-formed failure
    [{success: False, error: "Tool execution error: <e>"}]; and whatever
    the name, the arguments and the clock, [execute_tool] returns a
    dictionary: it never raises. *)
Theorem C6_exception_becomes_failure
    (type_error_message : signature -> gmap string value -> string)
    (self : registry) (tool_name : string) (t t' : tool) (e : string)
    (kwargs : gmap string value) (now : timestamp) :
  tools self !! tool_name = Some t ->
  call_execute type_error_message t kwargs now = (t', Raises e) ->
  (execute_tool type_error_message self tool_name kwargs now).2 =
    Returns (failure ("Tool execution error: " +:+ e)) /\
  is_failure (failure ("Tool execution error: " +:+ e)) /\
  dict_get "error" (failure ("Tool execution error: " +:+ e)) =
    Some (VStr ("Tool execution error: " +:+ e)) /\
  (forall name' kwargs' now',
     exists r,
       (execute_tool type_error_message self name' kwargs' now').2 =
       Returns r).
Proof.
  intros Hreg Hraise. split; [|split; [apply is_failure_failure|split]].
  - unfold execute_tool. rewrite Hreg, Hraise. reflexivity.
  - reflexivity.
  - intros name' kwargs' now'. unfold execute_tool.
    destruct (tools self !! name') as [u|]; [|by eexists].
    destruct (call_execute _ u kwargs' now') as [u' [r|e']]; by eexists.
Qed.

Lemma C6_exception_becomes_failure_witness :
  (execute_tool binding_error calculator_registry "calculator" ∅ 9).2 =
  Returns
    (failure ("Tool execution error: " +:+
              binding_error Handlers.calculator_signature ∅)).
Proof.
  refine (proj1
    (C6_exception_becomes_failure binding_error calculator_registry
       "calculator"
       (Handlers.calculator CalculatorTool.arith_py_eval no_untyped)
       (Handlers.calculator CalculatorTool.arith_py_eval no_untyped)
       (binding_error Handlers.calculator_signature ∅) ∅ 9 _ _)).
  - reflexivity.
  - reflexivity.
Defined.

End Registry.

(** * Further properties of the code *)

(** ** Telemetry over a run of calls *)

Section TelemetryRuns.
Import BaseTool Examples Runs.

Lemma log_calls_snoc self calls c :
  log_calls self (calls ++ [c]) =
  log_call (log_calls self calls)
    (call_success c) (call_error c) (call_now c).
Proof. unfold log_calls. by rewrite fold_left_app. Qed.

Lemma log_call_name self success error now :
  name (log_call self success error now) = name self /\
  description (log_call self success error now) = description self.
Proof. split; reflexivity. Qed.

(** A run of [log_call]s counts every call, whatever its outcome: it adds
    the number of calls to [call_count], keeps [name] and [description],
    and leaves [last_called] at the clock reading of the last call. *)
Theorem log_calls_counts_every_call (self : MCPTool) (calls : list call) :
  call_count (log_calls self calls) =
    call_count self + Z.of_nat (length calls) /\
  name (log_calls self calls) = name self /\
  description (log_calls self calls) = description self /\
  last_called (log_calls self calls) =
    match last calls with
    | Some c => Some (call_now c)
    | None => last_called self
    end.
Proof.
  induction calls as [|c calls IH] using rev_ind.
  - simpl. repeat split. lia.
  - rewrite log_calls_snoc, last_snoc, length_app. simpl.
    destruct IH as (Hc & Hn & Hd & _). repeat split; try assumption. lia.
Qed.

Lemma recorded_length_filter calls :
  length (recorded calls) = length (List.filter records_error calls).
Proof.
  induction calls as [|c calls IH]; simpl; [reflexivity|].
  rewrite length_app, IH. unfold records_error.
  destruct (call_error c) as [e|]; simpl.
  - destruct (negb (call_success c) && negb (String.eqb e ""));
      reflexivity.
  - rewrite andb_false_r. reflexivity.
Qed.

(** On a freshly constructed tool, after any run of calls, the exported
    [error_count] is the number of calls that failed with a non-empty
    message; successes and failures without message are not in it, and it
    never exceeds [call_count]. *)
Theorem error_count_counts_recorded_failures
    (n d : string) (calls : list call) :
  let t := log_calls (init n d) calls in
  error_count (get_stats t) = length (List.filter records_error calls) /\
  (error_count (get_stats t) <= length calls)%nat /\
  stats_call_count (get_stats t) = Z.of_nat (length calls).
Proof.
  intros t. subst t. unfold get_stats; simpl.
  rewrite log_calls_errors, log_calls_call_count. simpl.
  rewrite recorded_length_filter. repeat split.
  apply filter_length_le.
Qed.

(** Once three or more failures are stored, recording one more (a failure
    with a non-empty message) shifts the exported [recent_errors] by one:
    its oldest entry leaves and the new entry comes last. *)
Theorem recent_errors_window_slides
    (self : MCPTool) (e : string) (now : timestamp) :
  (3 <= length (errors self))%nat ->
  e <> ""%string ->
  recent_errors (get_stats (log_call self false (Some e) now)) =
  drop 1 (recent_errors (get_stats self)) ++ [ {| time := now; error := e |} ].
Proof.
  intros Hlen Hne. rewrite !get_stats_recent_errors. simpl.
  apply String.eqb_neq in Hne. rewrite Hne. simpl.
  unfold slice_last. rewrite length_app. simpl.
  rewrite drop_drop, drop_app_le by lia.
  f_equal. f_equal. lia.
Qed.

Lemma recent_errors_window_slides_witness :
  map error
    (recent_errors
       (get_stats (log_call after_four_failures false (Some "e5"%string) 5))) =
  ["e3"; "e4"; "e5"]%string.
Proof.
  rewrite (recent_errors_window_slides after_four_failures "e5" 5).
  - reflexivity.
  - vm_compute. lia.
  - discriminate.
Defined.

End TelemetryRuns.

(** ** data_tools.py *)

Section DataTools.
Import BaseTool.

Lemma all_allowed_false expression c :
  In c (list_ascii_of_string expression) ->
  ~ In c CalculatorTool.allowed_chars ->
  CalculatorTool.all_allowed expression = false.
Proof.
  intros Hin Hnot. unfold CalculatorTool.all_allowed.
  destruct (forallb _ _) eqn:Hall; [|reflexivity].
  rewrite forallb_forall in Hall. specialize (Hall c Hin).
  apply existsb_exists in Hall as (c' & Hc' & Heq).
  apply Ascii.eqb_eq in Heq. subst c'. contradiction.
Qed.

Lemma calculator_logs_once_count py_eval self expression now :
  call_count (CalculatorTool.execute py_eval self expression now).1 =
  call_count self + 1.
Proof.
  unfold CalculatorTool.execute.
  destruct (negb _); [reflexivity|]. by destruct (py_eval expression).
Qed.

(** [CalculatorTool.execute] updates the telemetry exactly once on every
    path, for every expression and every evaluator; it returns a Success
    and leaves the error list alone, or returns a Failure and appends
    exactly one entry, stamped with the clock reading of the call. *)
Theorem calculator_logs_once
    (py_eval : string -> CalculatorTool.eval_outcome)
    (self : MCPTool) (expression : string) (now : timestamp) :
  let out := CalculatorTool.execute py_eval self expression now in
  call_count out.1 = call_count self + 1 /\
  last_called out.1 = Some now /\
  ((is_success out.2 /\ errors out.1 = errors self) \/
   (is_failure out.2 /\
    exists msg, errors out.1 = errors self ++ [ {| time := now; error := msg |} ])).
Proof.
  intros out. subst out. unfold CalculatorTool.execute.
  destruct (negb (CalculatorTool.all_allowed expression)); simpl.
  - repeat split. right. split; [apply is_failure_failure|by eexists].
  - destruct (py_eval expression) as [v|e]; simpl.
    + repeat split. by left.
    + repeat split. right. split; [apply is_failure_failure|by eexists].
Qed.

(** An expression that contains a character outside the allowed set never
    reaches [eval]: whatever the evaluator, the result is the Failure
    [Expression contains invalid characters], and the entry logged for it
    reads [Invalid characters in expression]. *)
Theorem calculator_disallowed_character_skips_eval
    (py_eval py_eval' : string -> CalculatorTool.eval_outcome)
    (self : MCPTool) (expression : string) (c : ascii) (now : timestamp) :
  In c (list_ascii_of_string expression) ->
  ~ In c CalculatorTool.allowed_chars ->
  CalculatorTool.execute py_eval self expression now =
    CalculatorTool.execute py_eval' self expression now /\
  (CalculatorTool.execute py_eval self expression now).2 =
    failure "Expression contains invalid characters" /\
  errors (CalculatorTool.execute py_eval self expression now).1 =
    errors self ++
    [ {| time := now; error := "Invalid characters in expression" |} ].
Proof.
  intros Hin Hnot. unfold CalculatorTool.execute.
  rewrite (all_allowed_false _ _ Hin Hnot). simpl. repeat split.
Qed.

Lemma calculator_disallowed_character_skips_eval_witness :
  (CalculatorTool.execute CalculatorTool.arith_py_eval
     CalculatorTool.new "2 + x" 4).2 =
  failure "Expression contains invalid characters".
Proof.
  refine (proj1 (proj2
    (calculator_disallowed_character_skips_eval
       CalculatorTool.arith_py_eval CalculatorTool.arith_py_eval
       CalculatorTool.new "2 + x" "x"%char 4 _ _))).
  - simpl. tauto.
  - simpl. intros H.
    repeat (destruct H as [H|H]; [discriminate H|]). exact H.
Defined.

(** When every character is allowed and [eval] raises [e] (a syntax error,
    a division by zero), the calculator returns the Failure
    [Calculation error: e] and logs an entry with the same message. *)
Theorem calculator_eval_error_reported
    (py_eval : string -> CalculatorTool.eval_outcome)
    (self : MCPTool) (expression e : string) (now : timestamp) :
  CalculatorTool.all_allowed expression = true ->
  py_eval expression = CalculatorTool.EvalRaises e ->
  (CalculatorTool.execute py_eval self expression now).2 =
    failure ("Calculation error: " +:+ e) /\
  errors (CalculatorTool.execute py_eval self expression now).1 =
    errors self ++
    [ {| time := now; error := ("Calculation error: " +:+ e)%string |} ].
Proof.
  intros Hall Hraise. unfold CalculatorTool.execute.
  rewrite Hall, Hraise. simpl. split; reflexivity.
Qed.

Lemma calculator_eval_error_reported_witness :
  (CalculatorTool.execute CalculatorTool.arith_py_eval
     CalculatorTool.new "2 +" 4).2 =
  failure "Calculation error: invalid syntax".
Proof.
  refine (proj1
    (calculator_eval_error_reported CalculatorTool.arith_py_eval
       CalculatorTool.new "2 +" "invalid syntax" 4 _ _)).
  - reflexivity.
  - reflexivity.
Defined.

(** [JSONProcessorTool.execute] updates the telemetry exactly once on every
    path.  It fails exactly when [json.loads] raises, and then logs the
    message it returns; on data that loads it returns a Success and records
    no error, whatever the operation. *)
Theorem json_logs_once
    (json_loads : string -> JSONProcessorTool.loads_outcome)
    (json_dumps : value -> string)
    (self : MCPTool) (json_data operation key_path : string)
    (now : timestamp) :
  let out :=
    JSONProcessorTool.execute json_loads json_dumps
      self json_data operation key_path now in
  call_count out.1 = call_count self + 1 /\
  last_called out.1 = Some now /\
  match json_loads json_data with
  | JSONProcessorTool.Loaded _ =>
      is_success out.2 /\ errors out.1 = errors self
  | JSONProcessorTool.JSONDecodeError e =>
      out.2 = failure ("Invalid JSON: " +:+ e) /\
      errors out.1 =
        errors self ++
        [ {| time := now; error := ("Invalid JSON: " +:+ e)%string |} ]
  | JSONProcessorTool.LoadsRaises e =>
      out.2 = failure ("Processing error: " +:+ e) /\
      errors out.1 =
        errors self ++
        [ {| time := now; error := ("Processing error: " +:+ e)%string |} ]
  end.
Proof.
  intros out. subst out. unfold JSONProcessorTool.execute.
  destruct (json_loads json_data) as [data|e|e]; simpl; repeat split.
Qed.

(** The argument [key_path] has no effect: two calls that differ in it
    alone return the same result and leave the same telemetry. *)
Theorem json_key_path_ignored
    (json_loads : string -> JSONProcessorTool.loads_outcome)
    (json_dumps : value -> string)
    (self : MCPTool) (json_data operation key_path key_path' : string)
    (now : timestamp) :
  JSONProcessorTool.execute json_loads json_dumps
    self json_data operation key_path now =
  JSONProcessorTool.execute json_loads json_dumps
    self json_data operation key_path' now.
Proof. reflexivity. Qed.

(** On a JSON object, [count_items] and [extract_keys] agree: the count
    returned by the first is the number of keys returned by the second, and
    the keys come in the order of the object. *)
Theorem json_count_matches_keys
    (json_loads : string -> JSONProcessorTool.loads_outcome)
    (json_dumps : value -> string)
    (self : MCPTool) (json_data key_path : string)
    (items : list (string * value)) (now : timestamp) :
  json_loads json_data = JSONProcessorTool.Loaded (VDict items) ->
  exists keys,
    dict_get "result"
      (JSONProcessorTool.execute json_loads json_dumps
         self json_data "extract_keys" key_path now).2 =
      Some (VDict [("keys"%string, VList (map VStr keys))]) /\
    keys = map fst items /\
    dict_get "result"
      (JSONProcessorTool.execute json_loads json_dumps
         self json_data "count_items" key_path now).2 =
      Some (VDict [("count"%string, VInt (Z.of_nat (length keys)));
                   ("type"%string, VStr "dictionary")]).
Proof.
  intros Hload. exists (map fst items).
  unfold JSONProcessorTool.execute. rewrite Hload. simpl.
  rewrite length_map, map_map. repeat split.
Qed.

Lemma json_count_matches_keys_witness :
  dict_get "result"
    (JSONProcessorTool.execute StandIns.loads_sample
       (fun _ => "{}"%string) JSONProcessorTool.new
       StandIns.sample_json "count_items" "" 2).2 =
  Some (VDict [("count"%string, VInt 2);
               ("type"%string, VStr "dictionary")]).
Proof.
  destruct (json_count_matches_keys StandIns.loads_sample
              (fun _ => "{}"%string) JSONProcessorTool.new
              StandIns.sample_json "" StandIns.sample_data 2)
    as (keys & _ & -> & Hcount).
  - reflexivity.
  - exact Hcount.
Defined.

End DataTools.

(** ** office_tools.py *)

Section OfficeTools.
Import BaseTool PyBuiltins.

(** Case analysis on the comparisons of [operation] with string literals. *)
Ltac case_operation operation :=
  repeat lazymatch goal with
  | |- context [String.eqb operation ?s] =>
      destruct (String.eqb_spec operation s) as [->|?]
  end.

Lemma log_call_changes self success error now :
  log_call self success error now <> self.
Proof.
  intros H. apply (f_equal call_count) in H. simpl in H. lia.
Qed.

Ltac solve_operation_case :=
  simpl; repeat split;
  try (by intros [H _]; discriminate H);
  try (intros H; discriminate H);
  try (intros; apply is_failure_failure);
  try (intros H; exfalso; apply (log_call_changes _ _ _ _ H));
  try (intros; exfalso; simpl in *; intuition congruence);
  try (intros _ H; simpl in H; intuition congruence);
  try (intros; simpl in *; lia);
  try (simpl; tauto).

(** [EmailIntegrationTool.execute] returns a Success exactly for
    [read_recent] and [send_email] and a Failure for every other operation;
    it updates the telemetry (once) exactly for the four operations of the
    declared enum. *)
Theorem email_outcome_by_operation
    (self : MCPTool) (operation : string) (email_config : value)
    (kwargs : gmap string value) (now : timestamp) :
  let out :=
    EmailIntegrationTool.execute self operation email_config kwargs now in
  (is_success out.2 <->
     operation = "read_recent"%string \/ operation = "send_email"%string) /\
  (is_failure out.2 <->
     ~ (operation = "read_recent"%string \/ operation = "send_email"%string)) /\
  (call_count out.1 = call_count self + 1 <->
     In operation EmailIntegrationTool.operation_enum) /\
  (out.1 = self <-> ~ In operation EmailIntegrationTool.operation_enum).
Proof.
  intros out. subst out.
  unfold EmailIntegrationTool.execute, EmailIntegrationTool.execute_try.
  case_operation operation; solve_operation_case.
Qed.

(** [search_emails] and [get_unread] are declared in the enum but their
    helpers do not exist: such a call always returns the Failure
    [Email operation error: ... has no attribute ...], and it is logged
    once, as a failure with that message. *)
Theorem email_declared_but_missing
    (self : MCPTool) (operation : string) (email_config : value)
    (kwargs : gmap string value) (now : timestamp) :
  operation = "search_emails"%string \/ operation = "get_unread"%string ->
  let out :=
    EmailIntegrationTool.execute self operation email_config kwargs now in
  In operation EmailIntegrationTool.operation_enum /\
  exists attr,
    out.2 =
      failure ("Email operation error: " +:+
               attribute_error "EmailIntegrationTool" attr) /\
    out.1 =
      log_call self false
        (Some ("Email operation error: " +:+
               attribute_error "EmailIntegrationTool" attr)%string) now /\
    errors out.1 =
      errors self ++
      [ {| time := now;
           error := ("Email operation error: " +:+
                     attribute_error "EmailIntegrationTool" attr)%string |} ].
Proof.
  intros [->| ->]; simpl.
  - split; [tauto|]. exists "_search_emails"%string. repeat split.
  - split; [tauto|]. exists "_get_unread_emails"%string. repeat split.
Qed.

Lemma email_declared_but_missing_witness :
  In "get_unread"%string EmailIntegrationTool.operation_enum.
Proof.
  refine (proj1 (email_declared_but_missing EmailIntegrationTool.new
                   "get_unread" (VDict []) ∅ 1 _)).
  right. reflexivity.
Defined.

(** [SlackIntegrationTool.execute] returns a Success exactly for
    [read_messages] and [post_message]; it updates the telemetry (once)
    exactly for the four operations of the declared enum, so
    [get_channels] and [search_messages] are logged failures and any other
    operation fails without a trace. *)
Theorem slack_outcome_by_operation
    (self : MCPTool) (operation token : string)
    (kwargs : gmap string value) (now : timestamp) :
  let out := SlackIntegrationTool.execute self operation token kwargs now in
  (is_success out.2 <->
     operation = "read_messages"%string \/
     operation = "post_message"%string) /\
  (is_failure out.2 <->
     ~ (operation = "read_messages"%string \/
        operation = "post_message"%string)) /\
  (call_count out.1 = call_count self + 1 <->
     In operation SlackIntegrationTool.operation_enum) /\
  (out.1 = self <-> ~ In operation SlackIntegrationTool.operation_enum).
Proof.
  intros out. subst out.
  unfold SlackIntegrationTool.execute, SlackIntegrationTool.execute_try.
  case_operation operation; solve_operation_case.
Qed.

(** [send_invite] with a list of attendees (or none given) succeeds,
    reports as [invites_sent] the number of attendees and is logged once,
    as a success. *)
Theorem calendar_send_invite_counts_attendees
    (strftime : string -> timestamp -> string)
    (self : MCPTool) (kwargs : gmap string value) (attendees : list value)
    (now now' : timestamp) :
  kwargs_get kwargs "attendees" (VList []) = VList attendees ->
  let out :=
    CalendarTool.execute strftime self "send_invite" kwargs now now' in
  is_success out.2 /\
  dict_get "invites_sent" out.2 = Some (VInt (Z.of_nat (length attendees))) /\
  dict_get "attendees" out.2 = Some (VList attendees) /\
  out.1 = log_call self true None now.
Proof.
  intros Hatt. simpl. unfold CalendarTool.execute, CalendarTool.execute_try.
  simpl. unfold CalendarTool._send_invite. rewrite Hatt. simpl.
  repeat split.
Qed.

Lemma calendar_send_invite_counts_attendees_witness :
  dict_get "invites_sent"
    (CalendarTool.execute StandIns.plain_strftime CalendarTool.new
       "send_invite"
       {["attendees"%string := VList [VStr "a@x.org"; VStr "b@x.org"]]}
       1 2).2 = Some (VInt 2).
Proof.
  refine (proj1 (proj2
    (calendar_send_invite_counts_attendees StandIns.plain_strftime
       CalendarTool.new
       {["attendees"%string := VList [VStr "a@x.org"; VStr "b@x.org"]]}
       [VStr "a@x.org"; VStr "b@x.org"] 1 2 _))).
  reflexivity.
Defined.

(** [send_invite] with attendees that have no length ([None], a number):
    the helper has already logged a success when [len] raises, and the
    [except] clause of [execute] logs again.  The call returns a Failure,
    [call_count] grows by 2 and one error entry is appended, stamped with
    the second clock reading. *)
Theorem calendar_send_invite_unsized_logs_twice
    (strftime : string -> timestamp -> string)
    (self : MCPTool) (kwargs : gmap string value) (e : string)
    (now now' : timestamp) :
  py_len (kwargs_get kwargs "attendees" (VList [])) = inr e ->
  let out :=
    CalendarTool.execute strftime self "send_invite" kwargs now now' in
  out.2 = failure ("Calendar operation error: " +:+ e) /\
  call_count out.1 = call_count self + 2 /\
  last_called out.1 = Some now' /\
  errors out.1 =
    errors self ++
    [ {| time := now';
         error := ("Calendar operation error: " +:+ e)%string |} ].
Proof.
  intros Hlen. simpl. unfold CalendarTool.execute, CalendarTool.execute_try.
  simpl. unfold CalendarTool._send_invite. rewrite Hlen. simpl.
  repeat split. lia.
Qed.

Lemma calendar_send_invite_unsized_logs_twice_witness :
  call_count
    (CalendarTool.execute StandIns.plain_strftime CalendarTool.new
       "send_invite" {["attendees"%string := VNone]} 1 2).1 = 2.
Proof.
  refine (proj1 (proj2
    (calendar_send_invite_unsized_logs_twice StandIns.plain_strftime
       CalendarTool.new {["attendees"%string := VNone]}
       "object of type 'NoneType' has no len()" 1 2 _))).
  reflexivity.
Defined.

(** [CalendarTool.execute] on an operation other than [create_meeting] and
    [send_invite] always fails: [check_availability] and [list_events],
    declared in the enum, have no helper and are logged as failures; any
    other operation fails without touching the telemetry. *)
Theorem calendar_other_operations_fail
    (strftime : string -> timestamp -> string)
    (self : MCPTool) (operation : string) (kwargs : gmap string value)
    (now now' : timestamp) :
  operation <> "create_meeting"%string ->
  operation <> "send_invite"%string ->
  let out := CalendarTool.execute strftime self operation kwargs now now' in
  is_failure out.2 /\
  (call_count out.1 = call_count self + 1 <->
     In operation CalendarTool.operation_enum) /\
  (out.1 = self <-> ~ In operation CalendarTool.operation_enum) /\
  (length (errors out.1) = S (length (errors self)) <->
     In operation CalendarTool.operation_enum).
Proof.
  intros H1 H2 out. subst out.
  unfold CalendarTool.execute, CalendarTool.execute_try.
  case_operation operation; try congruence; simpl;
    rewrite ?length_app; solve_operation_case.
Qed.

Lemma calendar_other_operations_fail_witness :
  is_failure
    (CalendarTool.execute StandIns.plain_strftime CalendarTool.new
       "list_events" ∅ 1 2).2.
Proof.
  refine (proj1
    (calendar_other_operations_fail StandIns.plain_strftime CalendarTool.new
       "list_events" ∅ 1 2 _ _)); discriminate.
Defined.

(** [PowerPointTool.execute] handles three operations.  Every other one,
    [add_content] of the declared enum included, is answered
    [Unknown operation: ...] and leaves the tool untouched. *)
Theorem powerpoint_unhandled_operations
    (strftime : string -> timestamp -> string)
    (self : MCPTool) (operation : string) (kwargs : gmap string value)
    (now now' : timestamp) :
  operation <> "create_presentation"%string ->
  operation <> "add_slide"%string ->
  operation <> "save_presentation"%string ->
  PowerPointTool.execute strftime self operation kwargs now now' =
    (self, failure ("Unknown operation: " +:+ operation)) /\
  In "add_content"%string PowerPointTool.operation_enum.
Proof.
  intros H1 H2 H3.
  unfold PowerPointTool.execute, PowerPointTool.execute_try.
  case_operation operation; try congruence. split; [reflexivity|].
  simpl. tauto.
Qed.

Lemma powerpoint_unhandled_operations_witness :
  PowerPointTool.execute StandIns.plain_strftime PowerPointTool.new
    "add_content" ∅ 1 2 =
  (PowerPointTool.new, failure "Unknown operation: add_content").
Proof.
  refine (proj1
    (powerpoint_unhandled_operations StandIns.plain_strftime
       PowerPointTool.new "add_content" ∅ 1 2 _ _ _)); discriminate.
Defined.

(** [add_slide] reports as [content_items] the length of [content] and is
    logged once; when [content] has no length the success already logged
    is followed by a logged failure, so [call_count] grows by 2;
    [save_presentation] has no helper and is a logged failure. *)
Theorem powerpoint_add_slide_and_save
    (strftime : string -> timestamp -> string)
    (self : MCPTool) (kwargs : gmap string value) (now now' : timestamp) :
  let slide := PowerPointTool.execute strftime self "add_slide" kwargs now now' in
  let save :=
    PowerPointTool.execute strftime self "save_presentation" kwargs now now' in
  match py_len (kwargs_get kwargs "content" (VList [])) with
  | inl n =>
      is_success slide.2 /\
      dict_get "content_items" slide.2 = Some (VInt n) /\
      slide.1 = log_call self true None now
  | inr e =>
      slide.2 = failure ("PowerPoint operation error: " +:+ e) /\
      call_count slide.1 = call_count self + 2 /\
      errors slide.1 =
        errors self ++
        [ {| time := now';
             error := ("PowerPoint operation error: " +:+ e)%string |} ]
  end /\
  save.2 =
    failure ("PowerPoint operation error: " +:+
             attribute_error "PowerPointTool" "_save_presentation") /\
  call_count save.1 = call_count self + 1 /\
  length (errors save.1) = S (length (errors self)).
Proof.
  simpl. unfold PowerPointTool.execute, PowerPointTool.execute_try. simpl.
  unfold PowerPointTool._add_slide.
  destruct (py_len _) as [n|e]; simpl; rewrite ?length_app; simpl;
    repeat split; lia.
Qed.

(** A [format] outside the declared enum leaves [summary] unassigned.
    [log_call(True)] has run by the time the result dictionary reads it, so
    the call is logged as a success and then, by the [except] clause, as a
    failure: it returns the Failure [Summarization error: ...], [call_count]
    grows by 2 and one error entry is appended. *)
Theorem meeting_unknown_format_logs_twice
    (lower strip : string -> string)
    (strftime : string -> timestamp -> string)
    (unbound_local_error : string -> string)
    (self : MCPTool) (meeting_content meeting_title : string)
    (attendees : option (list string)) (format : string)
    (now now' : timestamp) :
  ~ In format MeetingSummarizerTool.format_enum ->
  let out :=
    MeetingSummarizerTool.execute lower strip strftime unbound_local_error
      self meeting_content meeting_title attendees format now now' in
  out.2 =
    failure ("Summarization error: " +:+ unbound_local_error "summary") /\
  call_count out.1 = call_count self + 2 /\
  last_called out.1 = Some now' /\
  errors out.1 =
    errors self ++
    [ {| time := now';
         error := ("Summarization error: " +:+
                   unbound_local_error "summary")%string |} ].
Proof.
  intros Hnot out. subst out. unfold MeetingSummarizerTool.execute.
  destruct (MeetingSummarizerTool.classify _ _ _) as [[a d] k].
  unfold MeetingSummarizerTool.summary_for.
  case_operation format; try (exfalso; apply Hnot; simpl; tauto).
  simpl. repeat split. lia.
Qed.

Lemma meeting_unknown_format_logs_twice_witness :
  call_count
    (MeetingSummarizerTool.execute StandIns.ascii_lower StandIns.ascii_strip
       StandIns.plain_strftime StandIns.unbound_local
       MeetingSummarizerTool.new "Action: ship it" "Sync" None "html" 1 2).1
  = 2.
Proof.
  refine (proj1 (proj2
    (meeting_unknown_format_logs_twice StandIns.ascii_lower
       StandIns.ascii_strip StandIns.plain_strftime StandIns.unbound_local
       MeetingSummarizerTool.new "Action: ship it" "Sync" None "html" 1 2 _))).
  simpl. intros H. repeat (destruct H as [H|H]; [discriminate H|]). exact H.
Defined.

Lemma classify_lengths lower strip lines :
  let '(action_items, decisions, key_points) :=
    MeetingSummarizerTool.classify lower strip lines in
  (length action_items + length decisions + length key_points
   <= length lines)%nat.
Proof.
  induction lines as [|line rest IH]; [simpl; lia|].
  cbn [MeetingSummarizerTool.classify].
  destruct (MeetingSummarizerTool.classify lower strip rest) as [[a d] k].
  destruct (MeetingSummarizerTool.mentions
              MeetingSummarizerTool.action_keywords (strip (lower line)));
    [simpl; lia|].
  destruct (MeetingSummarizerTool.mentions
              MeetingSummarizerTool.decisions_keywords (strip (lower line)));
    [simpl; lia|].
  destruct (20 <? str_len (strip line)); simpl; lia.
Qed.

(** With a [format] of the declared enum the summary succeeds and is logged
    once, as a success.  Every line of the content is counted at most once:
    the [action_items_count] and [decisions_count] it returns add up to no
    more than the number of lines. *)
Theorem meeting_declared_format_succeeds
    (lower strip : string -> string)
    (strftime : string -> timestamp -> string)
    (unbound_local_error : string -> string)
    (self : MCPTool) (meeting_content meeting_title : string)
    (attendees : option (list string)) (format : string)
    (now now' : timestamp) :
  In format MeetingSummarizerTool.format_enum ->
  let out :=
    MeetingSummarizerTool.execute lower strip strftime unbound_local_error
      self meeting_content meeting_title attendees format now now' in
  is_success out.2 /\
  call_count out.1 = call_count self + 1 /\
  errors out.1 = errors self /\
  dict_get "format" out.2 = Some (VStr format) /\
  exists a d,
    dict_get "action_items_count" out.2 = Some (VInt a) /\
    dict_get "decisions_count" out.2 = Some (VInt d) /\
    0 <= a /\ 0 <= d /\
    a + d <= Z.of_nat (length (split_on "010"%char meeting_content)).
Proof.
  intros Hin out. subst out. unfold MeetingSummarizerTool.execute.
  pose proof (classify_lengths lower strip
                (split_on "010"%char meeting_content)) as Hlen.
  destruct (MeetingSummarizerTool.classify _ _ _) as [[a d] k].
  unfold MeetingSummarizerTool.summary_for.
  simpl in Hin. destruct Hin as [<-|[<-|[<-|[<-|[]]]]]; simpl;
    (repeat split;
     exists (Z.of_nat (length a)), (Z.of_nat (length d));
     repeat split; lia).
Qed.

Lemma meeting_declared_format_succeeds_witness :
  is_success
    (MeetingSummarizerTool.execute StandIns.ascii_lower StandIns.ascii_strip
       StandIns.plain_strftime StandIns.unbound_local
       MeetingSummarizerTool.new "Action: ship it" "Sync" None
       "action_items" 1 2).2.
Proof.
  refine (proj1
    (meeting_declared_format_succeeds StandIns.ascii_lower
       StandIns.ascii_strip StandIns.plain_strftime StandIns.unbound_local
       MeetingSummarizerTool.new "Action: ship it" "Sync" None
       "action_items" 1 2 _)).
  simpl. tauto.
Defined.

End OfficeTools.

(** ** simple_server.py *)

Section RegistryUse.
Import BaseTool SimpleToolRegistry Examples.

(** After [register_tool], the tool and the schema it returns are found
    under the tool's name, and what is stored under every other name is as
    before. *)
Theorem register_tool_lookup (self : registry) (tool_instance : tool) :
  let n := name (telemetry tool_instance) in
  tools (register_tool self tool_instance) !! n = Some tool_instance /\
  tool_schemas (register_tool self tool_instance) !! n =
    Some (get_schema tool_instance (telemetry tool_instance)) /\
  stats_of (register_tool self tool_instance) n =
    Some (get_stats (telemetry tool_instance)) /\
  (forall other,
     other <> n ->
     tools (register_tool self tool_instance) !! other =
       tools self !! other /\
     tool_schemas (register_tool self tool_instance) !! other =
       tool_schemas self !! other).
Proof.
  intros n. subst n. unfold register_tool, stats_of; simpl.
  rewrite !lookup_insert_eq. repeat split; by rewrite lookup_insert_ne.
Qed.

(** Registering two tools of the same name keeps the second only: the
    registry is the one that registering the second alone gives, and the
    telemetry of the first is no longer reachable. *)
Theorem register_tool_last_wins (self : registry) (first second : tool) :
  name (telemetry first) = name (telemetry second) ->
  register_tool (register_tool self first) second =
    register_tool self second.
Proof.
  intros Hname. unfold register_tool; simpl. rewrite Hname.
  by rewrite !insert_insert_eq.
Qed.

Lemma register_tool_last_wins_witness :
  stats_call_count <$>
    stats_of
      (register_tool
         (register_tool init
            (with_telemetry
               (Handlers.calculator CalculatorTool.arith_py_eval no_untyped)
               after_four_failures))
         (Handlers.calculator CalculatorTool.arith_py_eval no_untyped))
      "calculator" = Some 0.
Proof.
  rewrite (register_tool_last_wins init
             (with_telemetry
                (Handlers.calculator CalculatorTool.arith_py_eval no_untyped)
                after_four_failures)
             (Handlers.calculator CalculatorTool.arith_py_eval no_untyped)).
  - reflexivity.
  - reflexivity.
Defined.

(** An invocation touches the invoked tool only: the stored schemas and
    the set of registered names are as before, and so is every tool
    registered under another name, telemetry included. *)
Theorem execute_tool_frame
    (type_error_message : signature -> gmap string value -> string)
    (self : registry) (tool_name : string)
    (kwargs : gmap string value) (now : timestamp) :
  let out := execute_tool type_error_message self tool_name kwargs now in
  tool_schemas out.1 = tool_schemas self /\
  dom (tools out.1) = dom (tools self) /\
  (forall other,
     other <> tool_name ->
     tools out.1 !! other = tools self !! other /\
     stats_of out.1 other = stats_of self other).
Proof.
  intros out. subst out. unfold execute_tool, stats_of.
  destruct (tools self !! tool_name) as [t|] eqn:Hreg; [|by repeat split].
  destruct (call_execute _ t kwargs now) as [t' [r|e]]; simpl.
  all: split; [reflexivity|]; split;
    [apply dom_insert_lookup_L; by rewrite Hreg|].
  all: intros other Hne; by rewrite lookup_insert_ne.
Qed.

Lemma bind_unexpected_keyword sg (kwargs : gmap string value) k :
  var_kw sg = false ->
  is_Some (kwargs !! k) ->
  ~ In k (parameters sg) ->
  bind sg kwargs = None.
Proof.
  intros Hkw Hk Hnot. unfold bind.
  destruct (bool_decide _); [reflexivity|].
  rewrite Hkw. simpl.
  destruct (bool_decide (dom kwargs ⊆ _)) eqn:Hsub; [|reflexivity].
  apply bool_decide_eq_true in Hsub. exfalso. apply Hnot.
  apply list_elem_of_In. apply (elem_of_list_to_set (C := gset string)).
  apply Hsub. by apply elem_of_dom.
Qed.

(** A keyword argument that the [execute] of the tool does not name, when
    that method has no catch-all for keywords, makes the invocation fail
    before the tool runs: the caller gets
    [Tool execution error: <binding error>] and the registry is
    unchanged. *)
Theorem execute_tool_unexpected_keyword
    (type_error_message : signature -> gmap string value -> string)
    (self : registry) (tool_name : string) (t : tool) (k : string)
    (kwargs : gmap string value) (now : timestamp) :
  tools self !! tool_name = Some t ->
  var_kw (execute_signature t) = false ->
  is_Some (kwargs !! k) ->
  ~ In k (parameters (execute_signature t)) ->
  execute_tool type_error_message self tool_name kwargs now =
  (self,
   Returns
     (failure
        ("Tool execution error: " +:+
         type_error_message (execute_signature t) kwargs))).
Proof.
  intros Hreg Hkw Hk Hnot. unfold execute_tool, call_execute. rewrite Hreg.
  rewrite (bind_unexpected_keyword _ _ k Hkw Hk Hnot).
  by rewrite (registry_insert_id _ _ _ Hreg).
Qed.

Lemma execute_tool_unexpected_keyword_witness :
  (execute_tool binding_error calculator_registry "calculator"
     {["expression"%string := VStr "1 + 1"; "precision"%string := VInt 2]}
     9).1 = calculator_registry.
Proof.
  refine (f_equal fst
    (execute_tool_unexpected_keyword binding_error calculator_registry
       "calculator"
       (Handlers.calculator CalculatorTool.arith_py_eval no_untyped)
       "precision"
       {["expression"%string := VStr "1 + 1"; "precision"%string := VInt 2]}
       9 _ _ _ _)).
  - reflexivity.
  - reflexivity.
  - by eexists.
  - simpl. intros [H|[]]. discriminate H.
Defined.

Lemma bind_calculator_expression (v : value) :
  bind Handlers.calculator_signature {["expression"%string := v]} =
  Some {["expression"%string := v]}.
Proof.
  unfold bind, Handlers.calculator_signature, parameters; simpl.
  rewrite dom_singleton_L.
  rewrite bool_decide_eq_false_2 by set_solver.
  rewrite bool_decide_eq_true_2 by set_solver. simpl.
  rewrite bool_decide_eq_true_2 by set_solver. simpl.
  reflexivity.
Qed.

(** Invoking the registered calculator with an [expression] string runs
    [CalculatorTool.execute] on the telemetry held in the registry: the
    caller gets its result unchanged and the registry holds the telemetry
    it leaves, so [call_count] there has grown by one. *)
Theorem execute_tool_runs_calculator
    (type_error_message : signature -> gmap string value -> string)
    (py_eval : string -> CalculatorTool.eval_outcome)
    (untyped : value -> timestamp -> MCPTool -> MCPTool * outcome)
    (self : registry) (before : MCPTool) (expression : string)
    (now : timestamp) :
  tools self !! "calculator"%string =
    Some (with_telemetry (Handlers.calculator py_eval untyped) before) ->
  let ran := CalculatorTool.execute py_eval before expression now in
  let out :=
    execute_tool type_error_message self "calculator"
      {["expression"%string := VStr expression]} now in
  out.2 = Returns ran.2 /\
  tools out.1 !! "calculator"%string =
    Some (with_telemetry (Handlers.calculator py_eval untyped) ran.1) /\
  stats_call_count <$> stats_of out.1 "calculator" =
    Some (call_count before + 1).
Proof.
  intros Hreg ran out. subst ran out.
  unfold execute_tool, call_execute, stats_of. rewrite Hreg. simpl.
  rewrite bind_calculator_expression. simpl.
  rewrite lookup_singleton_eq.
  pose proof (calculator_logs_once_count py_eval before expression now) as Hc.
  destruct (CalculatorTool.execute py_eval before expression now)
    as [after r]; simpl in *.
  rewrite !lookup_insert_eq. simpl. rewrite Hc. repeat split.
Qed.

Lemma execute_tool_runs_calculator_witness :
  (execute_tool binding_error calculator_registry "calculator"
     {["expression"%string := VStr "(10 + 5) * 2"]} 9).2 =
  Returns
    (CalculatorTool.execute CalculatorTool.arith_py_eval
       CalculatorTool.new "(10 + 5) * 2" 9).2.
Proof.
  refine (proj1
    (execute_tool_runs_calculator binding_error CalculatorTool.arith_py_eval
       no_untyped calculator_registry CalculatorTool.new "(10 + 5) * 2" 9 _)).
  reflexivity.
Defined.

End RegistryUse.

(** ** file_tools.py *)

Section FileTools.
Import BaseTool PyBuiltins.

Lemma slice_to_length {A : Type} (n : Z) (l : list A) :
  Z.of_nat (length (slice_to n l)) =
  if 0 <=? n then Z.min n (Z.of_nat (length l))
  else Z.max 0 (Z.of_nat (length l) + n).
Proof.
  unfold slice_to. destruct (Z.leb_spec 0 n); rewrite length_take; lia.
Qed.

(** A path that does not exist: the reader returns the Failure
    [File not found: <path>] and logs it once with the same message; the
    file is not opened and its size is not asked for, whatever they would
    answer. *)
Theorem file_reader_missing_file
    (path_exists : string -> bool)
    (read_lines read_lines' : string -> os_result (list string))
    (getsize getsize' : string -> os_result Z)
    (self : MCPTool) (file_path : string) (max_lines : Z)
    (now now' : timestamp) :
  path_exists file_path = false ->
  let out :=
    FileReaderTool.execute path_exists read_lines getsize
      self file_path max_lines now now' in
  out =
    FileReaderTool.execute path_exists read_lines' getsize'
      self file_path max_lines now now' /\
  out.2 = failure ("File not found: " +:+ file_path) /\
  call_count out.1 = call_count self + 1 /\
  errors out.1 =
    errors self ++
    [ {| time := now; error := ("File not found: " +:+ file_path)%string |} ].
Proof.
  intros Hmissing. simpl. unfold FileReaderTool.execute.
  rewrite Hmissing. simpl. repeat split.
Qed.

Lemma file_reader_missing_file_witness :
  (FileReaderTool.execute StandIns.notes_exists StandIns.notes_lines
     StandIns.notes_size FileReaderTool.new "absent.txt" 100 1 2).2 =
  failure "File not found: absent.txt".
Proof.
  refine (proj1 (proj2
    (file_reader_missing_file StandIns.notes_exists
       StandIns.notes_lines StandIns.notes_lines
       StandIns.notes_size StandIns.notes_size
       FileReaderTool.new "absent.txt" 100 1 2 _))).
  reflexivity.
Defined.

(** A file that is read and sized without error: the reader succeeds, is
    logged once, and returns the first [max_lines] lines joined, with
    [lines_read = min(max_lines, number of lines)]; a negative [max_lines]
    is a slice bound that counts from the end, so the last [-max_lines]
    lines are dropped instead. *)
Theorem file_reader_lines_read
    (path_exists : string -> bool)
    (read_lines : string -> os_result (list string))
    (getsize : string -> os_result Z)
    (self : MCPTool) (file_path : string) (max_lines : Z)
    (all_lines : list string) (file_size : Z) (now now' : timestamp) :
  path_exists file_path = true ->
  read_lines file_path = OsOk all_lines ->
  getsize file_path = OsOk file_size ->
  let out :=
    FileReaderTool.execute path_exists read_lines getsize
      self file_path max_lines now now' in
  is_success out.2 /\
  out.1 = log_call self true None now /\
  dict_get "lines_read" out.2 =
    Some (VInt (if 0 <=? max_lines
                then Z.min max_lines (Z.of_nat (length all_lines))
                else Z.max 0 (Z.of_nat (length all_lines) + max_lines))) /\
  dict_get "content" out.2 =
    Some (VStr (String.concat ""
                  (if 0 <=? max_lines
                   then take (Z.to_nat max_lines) all_lines
                   else take (length all_lines - Z.to_nat (- max_lines))
                          all_lines))) /\
  dict_get "file_size" out.2 = Some (VInt file_size).
Proof.
  intros Hex Hread Hsize. simpl. unfold FileReaderTool.execute.
  rewrite Hex, Hread, Hsize. simpl. rewrite slice_to_length.
  repeat split. unfold slice_to.
  destruct (Z.leb_spec 0 max_lines); [reflexivity|].
  do 4 f_equal. lia.
Qed.

Lemma file_reader_lines_read_witness :
  dict_get "lines_read"
    (FileReaderTool.execute StandIns.notes_exists StandIns.notes_lines
       StandIns.notes_size FileReaderTool.new "notes.txt" (-1) 1 2).2 =
  Some (VInt 2).
Proof.
  refine (proj1 (proj2 (proj2
    (file_reader_lines_read StandIns.notes_exists StandIns.notes_lines
       StandIns.notes_size FileReaderTool.new "notes.txt" (-1)
       ["one" +:+ newline; "two" +:+ newline; "three" +:+ newline]%string
       14 1 2 _ _ _)))); reflexivity.
Defined.

(** The size is asked for after the success has been logged.  When that
    call raises (the file has gone in the meantime) the [except] clause
    logs a failure on top: the reader returns [Error reading file: ...],
    [call_count] grows by 2 and one error entry is appended. *)
Theorem file_reader_size_error_logs_twice
    (path_exists : string -> bool)
    (read_lines : string -> os_result (list string))
    (getsize : string -> os_result Z)
    (self : MCPTool) (file_path : string) (max_lines : Z)
    (all_lines : list string) (e : string) (now now' : timestamp) :
  path_exists file_path = true ->
  read_lines file_path = OsOk all_lines ->
  getsize file_path = OsError e ->
  let out :=
    FileReaderTool.execute path_exists read_lines getsize
      self file_path max_lines now now' in
  out.2 = failure ("Error reading file: " +:+ e) /\
  call_count out.1 = call_count self + 2 /\
  last_called out.1 = Some now' /\
  errors out.1 =
    errors self ++
    [ {| time := now'; error := ("Error reading file: " +:+ e)%string |} ].
Proof.
  intros Hex Hread Hsize. simpl. unfold FileReaderTool.execute.
  rewrite Hex, Hread, Hsize. simpl. repeat split. lia.
Qed.

Lemma file_reader_size_error_logs_twice_witness :
  call_count
    (FileReaderTool.execute StandIns.notes_exists StandIns.notes_lines
       StandIns.size_gone FileReaderTool.new "notes.txt" 100 1 2).1 = 2.
Proof.
  refine (proj1 (proj2
    (file_reader_size_error_logs_twice StandIns.notes_exists
       StandIns.notes_lines StandIns.size_gone FileReaderTool.new
       "notes.txt" 100
       ["one" +:+ newline; "two" +:+ newline; "three" +:+ newline]%string
       "[Errno 2] No such file or directory" 1 2 _ _ _))); reflexivity.
Defined.

(** An open or read error (before anything is logged) is logged once: the
    reader returns [Error reading file: ...] and [call_count] grows by 1. *)
Theorem file_reader_read_error_logs_once
    (path_exists : string -> bool)
    (read_lines : string -> os_result (list string))
    (getsize : string -> os_result Z)
    (self : MCPTool) (file_path : string) (max_lines : Z)
    (e : string) (now now' : timestamp) :
  path_exists file_path = true ->
  read_lines file_path = OsError e ->
  FileReaderTool.execute path_exists read_lines getsize
    self file_path max_lines now now' =
  (log_call self false (Some ("Error reading file: " +:+ e)%string) now,
   failure ("Error reading file: " +:+ e)).
Proof.
  intros Hex Hread. unfold FileReaderTool.execute.
  rewrite Hex, Hread. reflexivity.
Qed.


(** A path without directory part: no directory is created, whatever
    [os.makedirs] would do; the file system the call leaves is the one the
    write leaves. *)
Theorem file_writer_no_directory
    (fs : Type) (dirname : string -> string)
    (makedirs makedirs' : fs -> string -> fs * option string)
    (write_text : fs -> string -> bool -> string -> fs * option string)
    (self : MCPTool) (disk : fs) (file_path content : string)
    (append : bool) (now : timestamp) :
  dirname file_path = ""%string ->
  FileWriterTool.execute fs dirname makedirs write_text
    self disk file_path content append now =
  FileWriterTool.execute fs dirname makedirs' write_text
    self disk file_path content append now /\
  (FileWriterTool.execute fs dirname makedirs write_text
     self disk file_path content append now).2 =
  (write_text disk file_path append content).1.
Proof.
  intros Hdir. unfold FileWriterTool.execute. rewrite Hdir. simpl.
  destruct (write_text disk file_path append content) as [disk2 [e|]];
    split; reflexivity.
Qed.

Lemma file_writer_no_directory_witness :
  (FileWriterTool.execute (gmap string string) StandIns.flat_dirname
     StandIns.flat_makedirs StandIns.flat_write
     FileWriterTool.new {["log.txt"%string := "a"%string]}
     "log.txt" "b" true 1).2 !! "log.txt"%string = Some "ab"%string.
Proof.
  rewrite (proj2
    (file_writer_no_directory (gmap string string) StandIns.flat_dirname
       StandIns.flat_makedirs StandIns.flat_makedirs StandIns.flat_write
       FileWriterTool.new {["log.txt"%string := "a"%string]}
       "log.txt" "b" true 1 eq_refl)).
  reflexivity.
Defined.

(** When the directory cannot be created the write is not attempted: the
    call returns [Error writing file: ...], whatever the write would do,
    and leaves the file system as [os.makedirs] left it. *)
Theorem file_writer_directory_error
    (fs : Type) (dirname : string -> string)
    (makedirs : fs -> string -> fs * option string)
    (write_text write_text' : fs -> string -> bool -> string -> fs * option string)
    (self : MCPTool) (disk disk1 : fs) (file_path content e : string)
    (append : bool) (now : timestamp) :
  dirname file_path <> ""%string ->
  makedirs disk (dirname file_path) = (disk1, Some e) ->
  FileWriterTool.execute fs dirname makedirs write_text
    self disk file_path content append now =
  FileWriterTool.execute fs dirname makedirs write_text'
    self disk file_path content append now /\
  FileWriterTool.execute fs dirname makedirs write_text
    self disk file_path content append now =
  (log_call self false (Some ("Error writing file: " +:+ e)%string) now,
   failure ("Error writing file: " +:+ e), disk1).
Proof.
  intros Hdir Hmk. unfold FileWriterTool.execute.
  apply String.eqb_neq in Hdir. rewrite Hdir, Hmk. split; reflexivity.
Qed.

Lemma file_writer_directory_error_witness :
  (FileWriterTool.execute (gmap string string) StandIns.locked_dirname
     StandIns.locked_makedirs StandIns.flat_write
     FileWriterTool.new ∅ "locked/log.txt" "b" false 1).2 = ∅.
Proof.
  rewrite (proj2
    (file_writer_directory_error (gmap string string)
       StandIns.locked_dirname StandIns.locked_makedirs
       StandIns.flat_write StandIns.flat_write
       FileWriterTool.new ∅ ∅ "locked/log.txt" "b"
       "[Errno 13] Permission denied: 'locked'" false 1
       ltac:(discriminate) eq_refl)).
  reflexivity.
Defined.

End FileTools.
